(** * fuzzy4: four-valued fuzzy logic ([src/src/fuzzy4/core.py])

    A shallow embedding of the [FuzzyBool] value type and of its operators,
    followed by the properties the specification states about them.

    Number model.  The Python code computes on [float].  Here a float is an
    exact rational ([Q]): [+], [-], [*] are the field operations, the
    comparisons [<], [>=], [==], [!=] are the order and the equality of the
    rationals, and [/] is partial (Python raises [ZeroDivisionError] on a
    zero divisor).  The components of a [FuzzyBool] are such numbers; rounding
    error is outside this embedding, and statements "up to floating-point
    epsilon" are proved as the exact identities they approximate.  The scalar
    operand of [*] and [/] may also be an int, which Python converts to a
    float and refuses with [OverflowError] beyond the float range, or one of
    the floats [inf], [-inf] and [nan]; both are modelled.  Module [Binary64]
    repeats the
    constructor and four operators on IEEE binary64 numbers, to evaluate
    the specification's concrete scenarios, and the constructor on
    non-finite inputs, as Python computes them. *)

From Stdlib Require Import QArith Qabs Qround ZArith List String Bool Lia Lqa.
From Stdlib Require PrimFloat.
From Stdlib Require Import Permutation.
From Stdlib Require FloatAxioms.
Import ListNotations.
Local Open Scope Q_scope.

(** ** Exceptions

    A computation that may raise returns [Raise e]; otherwise [Ok v]. *)

Inductive Exception : Type :=
| TypeError (msg : string)
| ValueError (msg : string)
| ZeroDivisionError (msg : string)
| OverflowError (msg : string).

Inductive Result (A : Type) : Type :=
| Ok (value : A)
| Raise (e : Exception).
Arguments Ok {A} value.
Arguments Raise {A} e.

Definition bind {A B : Type} (c : Result A) (k : A -> Result B) : Result B :=
  match c with
  | Ok v => k v
  | Raise e => Raise e
  end.

Notation "x <- c ;; k" := (bind c (fun x => k))
  (at level 61, c at next level, right associativity).

(** ** Python's numeric primitives on floats *)

Module Py.

(** [a < b], [a >= b], [a == b], [a != b] on floats. *)
Definition lt (a b : Q) : bool := negb (Qle_bool b a).
Definition gt (a b : Q) : bool := lt b a.
Definition ge (a b : Q) : bool := Qle_bool b a.
Definition eq (a b : Q) : bool := Qeq_bool a b.
Definition ne (a b : Q) : bool := negb (Qeq_bool a b).

(** The builtin [min(a, b)] keeps its first argument unless the second is
    strictly smaller; [max(a, b)] keeps its first argument unless the
    second is strictly larger. *)
Definition min (a b : Q) : Q := if lt b a then b else a.
Definition max (a b : Q) : Q := if gt b a then b else a.

(** [a / b] raises [ZeroDivisionError] on a zero divisor. *)
Definition div (a b : Q) : Result Q :=
  if eq b 0 then Raise (ZeroDivisionError "float division by zero")
  else Ok (a / b).

Definition abs (a : Q) : Q := Qabs a.

(** The floats that are not finite numbers. *)
Inductive NonFinite : Type := PosInf | NegInf | NaN.

(** A float: a finite number or one of the three others. *)
Inductive Float : Type :=
| Finite (q : Q)
| NotFinite (v : NonFinite).

(** The least positive int that no longer converts to a float: it rounds to
    [2 ** 1024].  The largest float is [2 ** 1024 - 2 ** 971]. *)
Definition int_limit : Z := (2 ^ 1024 - 2 ^ 970)%Z.

(** The conversion of the int operand of [float * int] and [float / int]:
    [OverflowError] when the int is out of the float range. *)
Definition float_of_int (n : Z) : Result Q :=
  if (int_limit <=? Z.abs n)%Z
  then Raise (OverflowError "int too large to convert to float")
  else Ok (inject_Z n).

(** [a * n] and [a / n] for a float [a] and an int [n]. *)
Definition mul_int (a : Q) (n : Z) : Result Q :=
  k <- float_of_int n ;; Ok (a * k).

Definition div_int (a : Q) (n : Z) : Result Q :=
  k <- float_of_int n ;; div a k.

(** [a * v] for a finite [a] and a non-finite [v]: an infinity with the
    sign of the product, NaN when [a] is zero or [v] is NaN. *)
Definition mul_nonfinite (a : Q) (v : NonFinite) : Float :=
  match v with
  | NaN => NotFinite NaN
  | PosInf =>
      if lt 0 a then NotFinite PosInf
      else if lt a 0 then NotFinite NegInf else NotFinite NaN
  | NegInf =>
      if lt 0 a then NotFinite NegInf
      else if lt a 0 then NotFinite PosInf else NotFinite NaN
  end.

(** [a / v] for a finite [a] and a non-finite [v]: a zero when [v] is an
    infinity, NaN when [v] is NaN. *)
Definition div_nonfinite (a : Q) (v : NonFinite) : Float :=
  match v with
  | NaN => NotFinite NaN
  | PosInf | NegInf => Finite 0
  end.

(** Rounding to the nearest integer, ties to the even one. *)
Definition round_half_even (x : Q) : Z :=
  let lo := Qfloor x in
  let r := x - inject_Z lo in
  if lt r (1 # 2) then lo
  else if lt (1 # 2) r then (lo + 1)%Z
  else if Z.even lo then lo else (lo + 1)%Z.

(** [round(x, ndigits)] for [ndigits >= 0]: the nearest multiple of
    [10 ** -ndigits], in lowest terms. *)
Definition round (x : Q) (ndigits : nat) : Q :=
  let scale := inject_Z (10 ^ Z.of_nat ndigits) in
  Qred (inject_Z (round_half_even (x * scale)) / scale).

(** [max(d, key=d.get)] on a dict given by its items in insertion order:
    the first key is kept until a strictly larger value is met.  An empty
    dict raises [ValueError]. *)
Fixpoint max_key_from (best : string) (best_val : Q)
         (items : list (string * Q)) : string :=
  match items with
  | [] => best
  | (k, v) :: rest =>
      if gt v best_val then max_key_from k v rest
      else max_key_from best best_val rest
  end.

Definition max_key (d : list (string * Q)) : Result string :=
  match d with
  | [] => Raise (ValueError "max() arg is an empty sequence")
  | (k, v) :: rest => Ok (max_key_from k v rest)
  end.

End Py.

(** ** Module-level helpers *)

(** [_clamp]: [max(0.0, min(1.0, value))]. *)
Definition _clamp (value : Q) : Q := Py.max 0 (Py.min 1 value).

(** [_clamp] on a float that may not be finite.  Every comparison with NaN
    is false, so [min(1.0, nan)] keeps [1.0]; [min(1.0, inf)] is [1.0];
    [min(1.0, -inf)] is [-inf] and [max(0.0, -inf)] is [0.0]. *)
Definition _clamp_float (value : Py.Float) : Q :=
  match value with
  | Py.Finite q => _clamp q
  | Py.NotFinite Py.PosInf => 1
  | Py.NotFinite Py.NegInf => 0
  | Py.NotFinite Py.NaN => 1
  end.

(** [_t_norm]: the product t-norm. *)
Definition _t_norm (a b : Q) : Q := a * b.

(** [_s_norm]: the probabilistic sum. *)
Definition _s_norm (a b : Q) : Q := a + b - a * b.

(** ** The [FuzzyBool] dataclass *)

(** The two stored fields.  [Build_FuzzyBool] is the generated [__init__],
    which stores its arguments as they are. *)
Record FuzzyBool : Type := Build_FuzzyBool { t : Q; f : Q }.

(** [__post_init__] replaces both fields by their clamped values. *)
Definition __post_init__ (self : FuzzyBool) : FuzzyBool :=
  Build_FuzzyBool (_clamp (t self)) (_clamp (f self)).

(** [FuzzyBool(t, f)]: the generated [__init__] followed by [__post_init__]. *)
Definition new (t f : Q) : FuzzyBool := __post_init__ (Build_FuzzyBool t f).

(** [FuzzyBool(t, f)] on arguments that may not be finite. *)
Definition new_float (t f : Py.Float) : FuzzyBool :=
  Build_FuzzyBool (_clamp_float t) (_clamp_float f).

(** *** Constants *)

Definition TRUE : FuzzyBool := new 1 0.
Definition FALSE : FuzzyBool := new 0 1.
Definition UNKNOWN : FuzzyBool := new 0 0.
Definition CONFLICT : FuzzyBool := new 1 1.

(** *** Component extraction *)

Definition truth (self : FuzzyBool) : Q := _t_norm (t self) (1 - f self).
Definition falsity (self : FuzzyBool) : Q := _t_norm (f self) (1 - t self).
Definition unknown (self : FuzzyBool) : Q := _t_norm (1 - t self) (1 - f self).
Definition conflict (self : FuzzyBool) : Q := _t_norm (t self) (f self).

Definition confirmation (self : FuzzyBool) : Q := t self.
Definition refutation (self : FuzzyBool) : Q := f self.

(** *** Logical operations

    The binary operators are annotated [other: FuzzyBool]; their
    [isinstance] guard answers [NotImplemented] for any other operand.  The
    embedding takes the operand at the annotated type, so the bodies below
    are the branch after the guard. *)

Definition __invert__ (self : FuzzyBool) : FuzzyBool :=
  new (f self) (t self).

Definition __and__ (self other : FuzzyBool) : FuzzyBool :=
  new (_t_norm (t self) (t other)) (_s_norm (f self) (f other)).

Definition __or__ (self other : FuzzyBool) : FuzzyBool :=
  new (_s_norm (t self) (t other)) (_t_norm (f self) (f other)).

Definition __rshift__ (self other : FuzzyBool) : FuzzyBool :=
  __or__ (__invert__ self) other.

Definition iff (self other : FuzzyBool) : FuzzyBool :=
  __and__ (__rshift__ self other) (__rshift__ other self).

(** [__eq__]: both components closer than [1e-9]. *)
Definition __eq__ (self other : FuzzyBool) : bool :=
  Py.lt (Py.abs (t self - t other)) 1e-9
  && Py.lt (Py.abs (f self - f other)) 1e-9.

(** [__hash__] hashes the tuple of the two components rounded to nine
    decimals.  [hash_key] is that tuple; the builtin [hash] applied to it is
    a parameter of [__hash__]. *)
Definition hash_key (self : FuzzyBool) : Q * Q :=
  (Py.round (t self) 9, Py.round (f self) 9).

Definition __hash__ (hash : Q * Q -> Z) (self : FuzzyBool) : Z :=
  hash (hash_key self).

(** *** Accumulation and component-wise arithmetic *)

Definition __add__ (self other : FuzzyBool) : FuzzyBool :=
  new (_s_norm (t self) (t other)) (_s_norm (f self) (f other)).

(** The operand of [*] and [/]: a [FuzzyBool], or a scalar that passes
    [isinstance(other, (int, float))]: a finite float, an int (a bool
    included), or a float that is not finite. *)
Inductive Operand : Type :=
| Fuzzy (other : FuzzyBool)
| Scalar (other : Q)
| ScalarInt (other : Z)
| ScalarNonFinite (other : Py.NonFinite).

Definition __mul__ (self : FuzzyBool) (other : Operand) : Result FuzzyBool :=
  match other with
  | Fuzzy other => Ok (new (t self * t other) (f self * f other))
  | Scalar other => Ok (new (t self * other) (f self * other))
  | ScalarInt other =>
      t' <- Py.mul_int (t self) other ;;
      f' <- Py.mul_int (f self) other ;;
      Ok (new t' f')
  | ScalarNonFinite other =>
      Ok (new_float (Py.mul_nonfinite (t self) other)
                    (Py.mul_nonfinite (f self) other))
  end.

Definition __rmul__ (self : FuzzyBool) (other : Operand) : Result FuzzyBool :=
  __mul__ self other.

Definition __truediv__ (self : FuzzyBool) (other : Operand)
  : Result FuzzyBool :=
  match other with
  | Fuzzy other =>
      t' <- (if Py.ne (t other) 0 then Py.div (t self) (t other) else Ok 0) ;;
      f' <- (if Py.ne (f other) 0 then Py.div (f self) (f other) else Ok 0) ;;
      Ok (new t' f')
  | Scalar other =>
      if Py.eq other 0 then Ok (new 0 0)
      else
        t' <- Py.div (t self) other ;;
        f' <- Py.div (f self) other ;;
        Ok (new t' f')
  | ScalarInt other =>
      if (other =? 0)%Z then Ok (new 0 0)
      else
        t' <- Py.div_int (t self) other ;;
        f' <- Py.div_int (f self) other ;;
        Ok (new t' f')
  | ScalarNonFinite other =>
      Ok (new_float (Py.div_nonfinite (t self) other)
                    (Py.div_nonfinite (f self) other))
  end.

(** *** Utility methods *)

(** The default of the [threshold] parameter. *)
Definition default_threshold : Q := 0.5.

Definition is_true (self : FuzzyBool) (threshold : Q) : bool :=
  Py.ge (truth self) threshold.
Definition is_false (self : FuzzyBool) (threshold : Q) : bool :=
  Py.ge (falsity self) threshold.
Definition is_unknown (self : FuzzyBool) (threshold : Q) : bool :=
  Py.ge (unknown self) threshold.
Definition is_conflict (self : FuzzyBool) (threshold : Q) : bool :=
  Py.ge (conflict self) threshold.

(** The dict literal of [dominant_state], in insertion order. *)
Definition components (self : FuzzyBool) : list (string * Q) :=
  [ ("true"%string, truth self);
    ("false"%string, falsity self);
    ("unknown"%string, unknown self);
    ("conflict"%string, conflict self) ].

Definition dominant_state (self : FuzzyBool) : Result string :=
  Py.max_key (components self).

Definition as_tuple (self : FuzzyBool) : Q * Q := (t self, f self).

(** *** Class methods *)

Definition from_crisp (value : bool) : FuzzyBool :=
  if value then TRUE else FALSE.

Definition from_probability (p : Q) : FuzzyBool :=
  let p := _clamp p in new p (1 - p).

(** *** [accumulate]

    The arguments of [accumulate] are arbitrary Python objects.  What the
    method asks of an argument is whether it is a [FuzzyBool], whether it
    has [__iter__] and which items it then yields, and the name of its
    type. *)

#[warnings="-register-all"]
Inductive PyObj : Type :=
| PFuzzy (x : FuzzyBool)
    (* a FuzzyBool instance *)
| PIter (type_name : string) (items : list PyObj)
    (* a list, tuple, generator, ...: the items its iteration yields *)
| PStr (s : string)
    (* a str: iterable, yields its characters as one-character strs *)
| PAtom (type_name : string).
    (* an object without __iter__: an int, a float, None, ... *)

(** [type(obj).__name__]. *)
Definition type_name (obj : PyObj) : string :=
  match obj with
  | PFuzzy _ => "FuzzyBool"
  | PIter name _ => name
  | PStr _ => "str"
  | PAtom name => name
  end.

(** [hasattr(obj, '__iter__')] together with the items of [for item in obj]:
    [None] when the object has no [__iter__]. *)
Definition iter_items (obj : PyObj) : option (list PyObj) :=
  match obj with
  | PFuzzy _ => None
  | PIter _ items => Some items
  | PStr s => Some (map (fun c => PStr (String c EmptyString)) (list_ascii_of_string s))
  | PAtom _ => None
  end.

(** The inner loop [for item in arg]: appends to [values] until an item is
    not a [FuzzyBool]. *)
Fixpoint extend_values (values : list FuzzyBool) (items : list PyObj)
  : Result (list FuzzyBool) :=
  match items with
  | [] => Ok values
  | PFuzzy item :: rest => extend_values (values ++ [item]) rest
  | item :: _ =>
      Raise (TypeError ("Expected FuzzyBool, got " ++ type_name item))
  end.

(** The outer loop [for arg in args]. *)
Fixpoint flatten_args (values : list FuzzyBool) (args : list PyObj)
  : Result (list FuzzyBool) :=
  match args with
  | [] => Ok values
  | arg :: rest =>
      match arg with
      | PFuzzy x => flatten_args (values ++ [x]) rest
      | _ =>
          match iter_items arg with
          | Some items =>
              values' <- extend_values values items ;;
              flatten_args values' rest
          | None =>
              Raise (TypeError ("Expected FuzzyBool or iterable, got "
                                  ++ type_name arg))
          end
      end
  end.

Definition accumulate (args : list PyObj) : Result FuzzyBool :=
  values <- flatten_args [] args ;;
  match values with
  | [] => Raise (ValueError "Cannot accumulate empty sequence")
  | first :: others => Ok (fold_left __add__ others first)
  end.

(** ** The same code on binary64 floats

    The constructor, [&], [+], [/] and [==] again, on Rocq's primitive
    binary64 floats: the arithmetic and the comparisons are those of
    Python's [float] (a comparison with NaN is false). *)

Module Binary64.
Import PrimFloat.
Local Open Scope float_scope.
#[local] Set Warnings "-inexact-float".

Definition lt (a b : float) : bool := a <? b.
Definition gt (a b : float) : bool := b <? a.
Definition ne (a b : float) : bool := negb (a =? b).
Definition min (a b : float) : float := if lt b a then b else a.
Definition max (a b : float) : float := if gt b a then b else a.

Definition div (a b : float) : Result float :=
  if b =? 0 then Raise (ZeroDivisionError "float division by zero")
  else Ok (a / b).

Definition _clamp (value : float) : float := max 0 (min 1 value).
Definition _t_norm (a b : float) : float := a * b.
Definition _s_norm (a b : float) : float := a + b - a * b.

Record FuzzyBool : Type := Build_FuzzyBool { t : float; f : float }.

Definition new (t f : float) : FuzzyBool :=
  Build_FuzzyBool (_clamp t) (_clamp f).

Definition __and__ (self other : FuzzyBool) : FuzzyBool :=
  new (_t_norm (t self) (t other)) (_s_norm (f self) (f other)).

Definition __add__ (self other : FuzzyBool) : FuzzyBool :=
  new (_s_norm (t self) (t other)) (_s_norm (f self) (f other)).

Definition __truediv__ (self other : FuzzyBool) : Result FuzzyBool :=
  t' <- (if ne (t other) 0 then div (t self) (t other) else Ok 0) ;;
  f' <- (if ne (f other) 0 then div (f self) (f other) else Ok 0) ;;
  Ok (new t' f').

Definition __eq__ (self other : FuzzyBool) : bool :=
  lt (abs (t self - t other)) 1e-9 && lt (abs (f self - f other)) 1e-9.

(** [abs(a - b) < 1e-9], the comparison the test suite uses for "≈". *)
Definition close (a b : float) : bool := lt (abs (a - b)) 1e-9.

(** [0.0 <= v <= 1.0]; false for NaN. *)
Definition in_unit (v : float) : bool := (0 <=? v) && (v <=? 1).

End Binary64.

(** ** Vocabulary of the properties *)

(** The class invariant: both stored components lie in [0, 1]. *)
Definition valid (x : FuzzyBool) : Prop :=
  (0 <= t x <= 1) /\ (0 <= f x <= 1).

(** [first_max d i k v]: the item at position [i] of [d] is [(k, v)], no
    value of [d] is larger than [v], and every value before position [i]
    is strictly smaller. *)
Definition first_max (d : list (string * Q)) (i : nat) (k : string) (v : Q)
  : Prop :=
  nth_error d i = Some (k, v)
  /\ (forall j k' v', nth_error d j = Some (k', v') -> v' <= v)
  /\ (forall j k' v', (j < i)%nat -> nth_error d j = Some (k', v') -> v' < v).

(** What a successful flattening collects, one level deep: a [FuzzyBool]
    argument contributes itself, an iterable argument contributes its
    items. *)
Definition is_fuzzy (obj : PyObj) : bool :=
  match obj with PFuzzy _ => true | _ => false end.

Definition fuzzy_of (obj : PyObj) : list FuzzyBool :=
  match obj with PFuzzy x => [x] | _ => [] end.

(** An argument is acceptable when it is a [FuzzyBool] or an iterable all
    of whose items are. *)
Definition acceptable (arg : PyObj) : bool :=
  match arg with
  | PFuzzy _ => true
  | _ => match iter_items arg with
         | Some items => forallb is_fuzzy items
         | None => false
         end
  end.

Definition arg_values (arg : PyObj) : list FuzzyBool :=
  match arg with
  | PFuzzy x => [x]
  | _ => match iter_items arg with
         | Some items => flat_map fuzzy_of items
         | None => []
         end
  end.

Definition flattened (args : list PyObj) : list FuzzyBool :=
  flat_map arg_values args.

(** [as_dict]: the four derived components under their names, in the
    order of the dict literal. *)
Definition as_dict (self : FuzzyBool) : list (string * Q) :=
  [ ("truth"%string, truth self);
    ("falsity"%string, falsity self);
    ("unknown"%string, unknown self);
    ("conflict"%string, conflict self) ].

(** The product [prod(1 - c_i)] of the docstring of [accumulate], for a
    component [c] of the values. *)
Definition complement_product (c : FuzzyBool -> Q) (values : list FuzzyBool)
  : Q :=
  fold_right (fun v acc => (1 - c v) * acc) 1 values.

(** * Properties *)

(** ** Comparisons and clamping *)

Lemma lt_spec (a b : Q) : reflect (a < b) (Py.lt a b).
Proof.
  unfold Py.lt. destruct (Qle_bool b a) eqn:E; constructor.
  - apply Qle_bool_iff in E. now apply Qle_not_lt.
  - apply Qnot_le_lt. intro H. apply Qle_bool_iff in H. congruence.
Qed.

Lemma gt_spec (a b : Q) : reflect (b < a) (Py.gt a b).
Proof. unfold Py.gt. apply lt_spec. Qed.

Lemma ge_spec (a b : Q) : reflect (b <= a) (Py.ge a b).
Proof.
  unfold Py.ge. destruct (Qle_bool b a) eqn:E; constructor.
  - now apply Qle_bool_iff.
  - intro H. apply Qle_bool_iff in H. congruence.
Qed.

Lemma eq_spec (a b : Q) : reflect (a == b) (Py.eq a b).
Proof.
  unfold Py.eq. destruct (Qeq_bool a b) eqn:E; constructor.
  - now apply Qeq_bool_iff.
  - intro H. apply Qeq_bool_iff in H. congruence.
Qed.

Lemma ne_spec (a b : Q) : reflect (~ a == b) (Py.ne a b).
Proof.
  unfold Py.ne. destruct (Qeq_bool a b) eqn:E; constructor.
  - apply Qeq_bool_iff in E. tauto.
  - intro H. apply Qeq_bool_iff in H. congruence.
Qed.

(** Splits on every comparison of [_clamp] in the goal. *)
Ltac clamp_cases v :=
  unfold _clamp, Py.max, Py.min;
  destruct (lt_spec v 1); cbv iota;
  [ destruct (gt_spec v 0) | destruct (gt_spec 1 0) ]; cbv iota.

Lemma clamp_range (v : Q) : 0 <= _clamp v <= 1.
Proof. clamp_cases v; lra. Qed.

Lemma clamp_below (v : Q) : v <= 0 -> _clamp v = 0.
Proof. intros H. clamp_cases v; try reflexivity; lra. Qed.

Lemma clamp_above (v : Q) : 1 <= v -> _clamp v = 1.
Proof. intros H. clamp_cases v; try reflexivity; lra. Qed.

Lemma clamp_inside (v : Q) : 0 <= v <= 1 -> _clamp v == v.
Proof. intros H. clamp_cases v; lra. Qed.

Lemma clamp_idempotent (v : Q) : _clamp (_clamp v) = _clamp v.
Proof.
  destruct (Qlt_le_dec 0 v) as [Hpos | Hneg].
  - destruct (Qlt_le_dec v 1) as [Hlt | Hge].
    + assert (E : _clamp v = v).
      { clamp_cases v; try reflexivity; lra. }
      now rewrite !E.
    + rewrite (clamp_above v Hge). reflexivity.
  - rewrite (clamp_below v Hneg). reflexivity.
Qed.

Lemma new_valid (t0 f0 : Q) : valid (new t0 f0).
Proof. split; apply clamp_range. Qed.

Lemma clamp_float_range (v : Py.Float) : 0 <= _clamp_float v <= 1.
Proof.
  destruct v as [q | [ | | ]]; simpl; try apply clamp_range; lra.
Qed.

Lemma new_float_valid (t0 f0 : Py.Float) : valid (new_float t0 f0).
Proof. split; apply clamp_float_range. Qed.

Lemma mul_valid (x : FuzzyBool) (o : Operand) (r : FuzzyBool) :
  __mul__ x o = Ok r -> valid r.
Proof.
  destruct o as [y | k | n | v]; simpl.
  - intros [= <-]. apply new_valid.
  - intros [= <-]. apply new_valid.
  - destruct (Py.mul_int (t x) n); simpl; try discriminate.
    destruct (Py.mul_int (f x) n); simpl; try discriminate.
    intros [= <-]. apply new_valid.
  - intros [= <-]. apply new_float_valid.
Qed.

Lemma truediv_valid (x : FuzzyBool) (o : Operand) (r : FuzzyBool) :
  __truediv__ x o = Ok r -> valid r.
Proof.
  destruct o as [y | k | n | v]; simpl.
  - destruct (Py.ne (t y) 0); [destruct (Py.div (t x) (t y)) | ]; simpl;
      try discriminate;
      (destruct (Py.ne (f y) 0); [destruct (Py.div (f x) (f y)) | ]; simpl;
       try discriminate; intros [= <-]; apply new_valid).
  - destruct (Py.eq k 0).
    + intros [= <-]. apply new_valid.
    + destruct (Py.div (t x) k); simpl; try discriminate.
      destruct (Py.div (f x) k); simpl; try discriminate.
      intros [= <-]. apply new_valid.
  - destruct (n =? 0)%Z.
    + intros [= <-]. apply new_valid.
    + destruct (Py.div_int (t x) n); simpl; try discriminate.
      destruct (Py.div_int (f x) n); simpl; try discriminate.
      intros [= <-]. apply new_valid.
  - intros [= <-]. apply new_float_valid.
Qed.

Lemma clamp_compat (v w : Q) : v == w -> _clamp v == _clamp w.
Proof.
  intros E.
  destruct (Qlt_le_dec 0 v) as [Hpos | Hneg].
  - destruct (Qlt_le_dec v 1) as [Hlt | Hge].
    + rewrite (clamp_inside v), (clamp_inside w); lra.
    + rewrite (clamp_above v), (clamp_above w); lra.
  - rewrite (clamp_below v), (clamp_below w); lra.
Qed.

Lemma t_norm_range (a b : Q) :
  0 <= a <= 1 -> 0 <= b <= 1 -> 0 <= _t_norm a b <= 1.
Proof. unfold _t_norm. intros Ha Hb. nra. Qed.

Lemma s_norm_range (a b : Q) :
  0 <= a <= 1 -> 0 <= b <= 1 -> 0 <= _s_norm a b <= 1.
Proof. unfold _s_norm. intros Ha Hb. nra. Qed.

(** ** Equality with tolerance *)

Lemma tolerance_pos : 0 < 1e-9.
Proof. reflexivity. Qed.

Lemma eq_iff (x y : FuzzyBool) :
  __eq__ x y = true <->
  Qabs (t x - t y) < 1e-9 /\ Qabs (f x - f y) < 1e-9.
Proof.
  unfold __eq__, Py.abs. rewrite andb_true_iff.
  split; intros [H1 H2]; split;
    first [ now destruct (lt_spec (Qabs (t x - t y)) 1e-9)
          | now destruct (lt_spec (Qabs (f x - f y)) 1e-9) ].
Qed.

(** Values whose components are equal as numbers are [==]. *)
Lemma eq_of_Qeq (x y : FuzzyBool) :
  t x == t y -> f x == f y -> __eq__ x y = true.
Proof.
  intros Ht Hf. apply eq_iff. pose proof tolerance_pos as Hpos.
  split; apply Qabs_Qlt_condition; lra.
Qed.

(** ** Construction *)

Lemma operators_valid (x y : FuzzyBool) (k : Q) (o : Operand) :
  valid (__invert__ x) /\ valid (__and__ x y) /\ valid (__or__ x y)
  /\ valid (__rshift__ x y) /\ valid (iff x y) /\ valid (__add__ x y)
  /\ (exists r, __mul__ x (Fuzzy y) = Ok r /\ valid r)
  /\ (exists r, __mul__ x (Scalar k) = Ok r /\ valid r)
  /\ (forall r, __mul__ x o = Ok r -> valid r)
  /\ (forall r, __rmul__ x o = Ok r -> valid r)
  /\ (forall r, __truediv__ x o = Ok r -> valid r).
Proof.
  repeat (split; [apply new_valid |]).
  split; [eexists; split; [reflexivity | apply new_valid] |].
  split; [eexists; split; [reflexivity | apply new_valid] |].
  split; [intros r; apply mul_valid |].
  split; [intros r; apply mul_valid |].
  intros r. apply truediv_valid.
Qed.

(** C2.  The constructor never fails and clamps both components into
    [0, 1]: an input below 0 becomes 0, an input above 1 becomes 1, an input
    inside the range is kept.  [FuzzyBool(1.5, -0.3) == FuzzyBool(1.0, 0.0)].
    Every operator builds its result with the constructor, so the result's
    components lie in [0, 1] whatever the operands are.  [*] and [/] may
    raise on a scalar operand; whenever they return a result its components
    lie in [0, 1], and [*] by a [FuzzyBool] or by a finite float always
    returns one. *)
Theorem construction_clamps (t0 f0 : Q) :
  valid (new t0 f0)
  /\ (t0 < 0 -> t (new t0 f0) = 0)
  /\ (1 < t0 -> t (new t0 f0) = 1)
  /\ (0 <= t0 <= 1 -> t (new t0 f0) == t0)
  /\ (f0 < 0 -> f (new t0 f0) = 0)
  /\ (1 < f0 -> f (new t0 f0) = 1)
  /\ (0 <= f0 <= 1 -> f (new t0 f0) == f0)
  /\ new 1.5 (-0.3) = new 1 0
  /\ __eq__ (new 1.5 (-0.3)) (new 1 0) = true
  /\ (forall (x y : FuzzyBool) (k : Q) (o : Operand),
         valid (__invert__ x) /\ valid (__and__ x y) /\ valid (__or__ x y)
         /\ valid (__rshift__ x y) /\ valid (iff x y) /\ valid (__add__ x y)
         /\ (exists r, __mul__ x (Fuzzy y) = Ok r /\ valid r)
         /\ (exists r, __mul__ x (Scalar k) = Ok r /\ valid r)
         /\ (forall r, __mul__ x o = Ok r -> valid r)
         /\ (forall r, __rmul__ x o = Ok r -> valid r)
         /\ (forall r, __truediv__ x o = Ok r -> valid r)).
Proof.
  split; [apply new_valid |].
  split; [intros H; apply clamp_below; simpl; lra |].
  split; [intros H; apply clamp_above; simpl; lra |].
  split; [intros H; now apply clamp_inside |].
  split; [intros H; apply clamp_below; simpl; lra |].
  split; [intros H; apply clamp_above; simpl; lra |].
  split; [intros H; now apply clamp_inside |].
  split; [reflexivity |].
  split; [reflexivity |].
  intros x y k o. apply operators_valid.
Qed.

Lemma construction_clamps_witness :
  t (new 1.5 (-0.3)) = 1 /\ f (new 1.5 (-0.3)) = 0
  /\ t (new 0.25 0.75) == 0.25 /\ f (new 0.25 0.75) == 0.75
  /\ valid (new 2 2).
Proof.
  destruct (construction_clamps 1.5 (-0.3)) as (_ & _ & Ht & _ & Hf & _).
  destruct (construction_clamps 0.25 0.75) as (_ & _ & _ & Ht' & _ & _ & Hf' & _).
  destruct (construction_clamps 0 0) as (_ & _ & _ & _ & _ & _ & _ & _ & _ & Hop).
  destruct (Hop (new 1 1) (new 1 1) 0 (Scalar 0.5))
    as (_ & _ & _ & _ & _ & _ & _ & _ & _ & _ & Hdiv).
  split; [apply Ht; reflexivity |].
  split; [apply Hf; reflexivity |].
  split; [apply Ht'; split; discriminate |].
  split; [apply Hf'; split; discriminate |].
  apply (Hdiv (new 2 2)). reflexivity.
Defined.

(** ** Conjunction *)

(** C1.  [x & y] is [FuzzyBool(_t_norm(x.t, y.t), _s_norm(x.f, y.f))] with
    [_t_norm(a, b) = a * b] and [_s_norm(a, b) = a + b - a * b]; on values
    with components in [0, 1] the constructor's clamping changes nothing, so
    the result's components are the product and the probabilistic sum.
    [FuzzyBool(0.8, 0.2) & FuzzyBool(0.6, 0.3)] has [t = 0.48], [f = 0.44]. *)
Theorem and_is_product_and_probabilistic_sum (x y : FuzzyBool) :
  (forall a b, _t_norm a b = a * b)
  /\ (forall a b, _s_norm a b = a + b - a * b)
  /\ __and__ x y = new (_t_norm (t x) (t y)) (_s_norm (f x) (f y))
  /\ (valid x -> valid y ->
      t (__and__ x y) == t x * t y
      /\ f (__and__ x y) == f x + f y - f x * f y)
  /\ t (__and__ (new 0.8 0.2) (new 0.6 0.3)) == 0.48
  /\ f (__and__ (new 0.8 0.2) (new 0.6 0.3)) == 0.44.
Proof.
  split; [reflexivity |].
  split; [reflexivity |].
  split; [reflexivity |].
  split; [| split; reflexivity].
  intros [Hxt Hxf] [Hyt Hyf]. unfold __and__, new, __post_init__; simpl.
  split.
  - apply clamp_inside. now apply t_norm_range.
  - apply clamp_inside. now apply s_norm_range.
Qed.

Lemma and_is_product_and_probabilistic_sum_witness :
  valid (new 0.8 0.2) /\ valid (new 0.6 0.3)
  /\ t (__and__ (new 0.8 0.2) (new 0.6 0.3)) == 0.8 * 0.6
  /\ f (__and__ (new 0.8 0.2) (new 0.6 0.3)) == 0.2 + 0.3 - 0.2 * 0.3.
Proof.
  assert (Hx : valid (new 0.8 0.2)) by (repeat split; discriminate).
  assert (Hy : valid (new 0.6 0.3)) by (repeat split; discriminate).
  split; [exact Hx |]. split; [exact Hy |].
  destruct (and_is_product_and_probabilistic_sum (new 0.8 0.2) (new 0.6 0.3))
    as (_ & _ & _ & H & _).
  exact (H Hx Hy).
Defined.

(** ** Derived components *)

(** C3.  The four derived components are [t*(1-f)], [f*(1-t)],
    [(1-t)*(1-f)] and [t*f], and they sum to 1. *)
Theorem components_sum_to_one (x : FuzzyBool) :
  truth x = t x * (1 - f x)
  /\ falsity x = f x * (1 - t x)
  /\ unknown x = (1 - t x) * (1 - f x)
  /\ conflict x = t x * f x
  /\ truth x + falsity x + unknown x + conflict x == 1.
Proof.
  repeat (split; [reflexivity |]).
  unfold truth, falsity, unknown, conflict, _t_norm. ring.
Qed.

(** ** De Morgan duality *)

Lemma invert_components (x : FuzzyBool) :
  valid x -> t (__invert__ x) == f x /\ f (__invert__ x) == t x.
Proof. intros [Ht Hf]. split; now apply clamp_inside. Qed.

(** C4.  [~(x & y) == (~x) | (~y)] and [~(x | y) == (~x) & (~y)] for all
    values with components in [0, 1]. *)
Theorem de_morgan (x y : FuzzyBool) :
  valid x -> valid y ->
  __eq__ (__invert__ (__and__ x y)) (__or__ (__invert__ x) (__invert__ y))
  = true
  /\ __eq__ (__invert__ (__or__ x y)) (__and__ (__invert__ x) (__invert__ y))
     = true.
Proof.
  intros Hx Hy.
  destruct (invert_components x Hx) as [Hxt Hxf].
  destruct (invert_components y Hy) as [Hyt Hyf].
  split; apply eq_of_Qeq.
  - change (_clamp (_clamp (_s_norm (f x) (f y)))
            == _clamp (_s_norm (t (__invert__ x)) (t (__invert__ y)))).
    rewrite clamp_idempotent. apply clamp_compat.
    unfold _s_norm. rewrite Hxt, Hyt. reflexivity.
  - change (_clamp (_clamp (_t_norm (t x) (t y)))
            == _clamp (_t_norm (f (__invert__ x)) (f (__invert__ y)))).
    rewrite clamp_idempotent. apply clamp_compat.
    unfold _t_norm. rewrite Hxf, Hyf. reflexivity.
  - change (_clamp (_clamp (_t_norm (f x) (f y)))
            == _clamp (_t_norm (t (__invert__ x)) (t (__invert__ y)))).
    rewrite clamp_idempotent. apply clamp_compat.
    unfold _t_norm. rewrite Hxt, Hyt. reflexivity.
  - change (_clamp (_clamp (_s_norm (t x) (t y)))
            == _clamp (_s_norm (f (__invert__ x)) (f (__invert__ y)))).
    rewrite clamp_idempotent. apply clamp_compat.
    unfold _s_norm. rewrite Hxf, Hyf. reflexivity.
Qed.

Lemma de_morgan_witness :
  valid (new 0.7 0.2) /\ valid (new 0.5 0.4)
  /\ __eq__ (__invert__ (__and__ (new 0.7 0.2) (new 0.5 0.4)))
            (__or__ (__invert__ (new 0.7 0.2)) (__invert__ (new 0.5 0.4)))
     = true
  /\ __eq__ (__invert__ (__or__ (new 0.7 0.2) (new 0.5 0.4)))
            (__and__ (__invert__ (new 0.7 0.2)) (__invert__ (new 0.5 0.4)))
     = true.
Proof.
  assert (Hx : valid (new 0.7 0.2)) by (repeat split; discriminate).
  assert (Hy : valid (new 0.5 0.4)) by (repeat split; discriminate).
  split; [exact Hx |]. split; [exact Hy |].
  exact (de_morgan (new 0.7 0.2) (new 0.5 0.4) Hx Hy).
Defined.

(** ** Accumulation *)

Lemma add_range (x y : FuzzyBool) :
  t (__add__ x y) <= 1 /\ f (__add__ x y) <= 1.
Proof. split; apply clamp_range. Qed.

(** C5.  [UNKNOWN] is neutral for [+]: [x + UNKNOWN == x] for every value
    with components in [0, 1]; [+] saturates: [TRUE + TRUE == TRUE], and no
    component of a sum exceeds 1. *)
Theorem add_neutral_and_saturating (x : FuzzyBool) :
  valid x ->
  UNKNOWN = Build_FuzzyBool 0 0
  /\ __eq__ (__add__ x UNKNOWN) x = true
  /\ __eq__ (__add__ TRUE TRUE) TRUE = true
  /\ (forall y : FuzzyBool, t (__add__ x y) <= 1 /\ f (__add__ x y) <= 1).
Proof.
  intros [Ht Hf].
  split; [reflexivity |].
  split; [| split; [reflexivity | apply add_range]].
  apply eq_of_Qeq.
  - change (_clamp (t x + 0 - t x * 0) == t x).
    rewrite clamp_inside; lra.
  - change (_clamp (f x + 0 - f x * 0) == f x).
    rewrite clamp_inside; lra.
Qed.

Lemma add_neutral_and_saturating_witness :
  valid (new 0.3 0.6)
  /\ __eq__ (__add__ (new 0.3 0.6) UNKNOWN) (new 0.3 0.6) = true
  /\ t (__add__ (new 0.3 0.6) TRUE) <= 1.
Proof.
  assert (Hx : valid (new 0.3 0.6)) by (repeat split; discriminate).
  destruct (add_neutral_and_saturating (new 0.3 0.6) Hx)
    as (_ & Hn & _ & Hs).
  split; [exact Hx |]. split; [exact Hn |]. exact (proj1 (Hs TRUE)).
Defined.

(** ** Division *)

Lemma div_nonzero (a b : Q) : ~ b == 0 -> Py.div a b = Ok (a / b).
Proof. intros H. unfold Py.div. now destruct (eq_spec b 0). Qed.

Lemma float_of_int_in_range (n : Z) :
  (Z.abs n < Py.int_limit)%Z -> Py.float_of_int n = Ok (inject_Z n).
Proof.
  intros H. unfold Py.float_of_int.
  destruct (Z.leb_spec Py.int_limit (Z.abs n)); [lia | reflexivity].
Qed.

Lemma float_of_int_overflow (n : Z) :
  (Py.int_limit <= Z.abs n)%Z ->
  Py.float_of_int n
  = Raise (OverflowError "int too large to convert to float").
Proof.
  intros H. unfold Py.float_of_int.
  destruct (Z.leb_spec Py.int_limit (Z.abs n)); [reflexivity | lia].
Qed.

Lemma inject_Z_nonzero (n : Z) : n <> 0%Z -> ~ inject_Z n == 0.
Proof. intros H E. apply H. unfold Qeq in E. simpl in E. lia. Qed.

Lemma truediv_fuzzy_policy (x y : FuzzyBool) :
  exists r, __truediv__ x (Fuzzy y) = Ok r
    /\ (t y == 0 -> t r = 0)
    /\ (~ t y == 0 -> t r = _clamp (t x / t y))
    /\ (f y == 0 -> f r = 0)
    /\ (~ f y == 0 -> f r = _clamp (f x / f y)).
Proof.
  simpl.
  destruct (ne_spec (t y) 0) as [Ht | Ht];
    destruct (ne_spec (f y) 0) as [Hf | Hf];
    rewrite ?(div_nonzero _ _ Ht), ?(div_nonzero _ _ Hf); simpl;
    eexists; (split; [reflexivity |]); simpl; repeat split; tauto.
Qed.

Lemma truediv_scalar_policy (x : FuzzyBool) (k : Q) :
  (k == 0 -> __truediv__ x (Scalar k) = Ok UNKNOWN)
  /\ (~ k == 0 -> __truediv__ x (Scalar k) = Ok (new (t x / k) (f x / k))).
Proof.
  simpl. destruct (eq_spec k 0) as [Hk | Hk].
  - split; [reflexivity | tauto].
  - split; [tauto |]. intros _. now rewrite !(div_nonzero _ _ Hk).
Qed.

Lemma truediv_int_policy (x : FuzzyBool) (n : Z) :
  (n = 0%Z -> __truediv__ x (ScalarInt n) = Ok UNKNOWN)
  /\ (n <> 0%Z -> (Z.abs n < Py.int_limit)%Z ->
      __truediv__ x (ScalarInt n)
      = Ok (new (t x / inject_Z n) (f x / inject_Z n)))
  /\ ((Py.int_limit <= Z.abs n)%Z ->
      __truediv__ x (ScalarInt n)
      = Raise (OverflowError "int too large to convert to float")).
Proof.
  assert (Hlimit : (0 < Py.int_limit)%Z) by reflexivity.
  simpl. destruct (Z.eqb_spec n 0) as [E | E].
  - split; [reflexivity |]. split; [tauto |]. subst n. simpl. lia.
  - split; [tauto |]. split.
    + intros _ Hn. unfold Py.div_int.
      rewrite (float_of_int_in_range n Hn). simpl.
      now rewrite !(div_nonzero _ _ (inject_Z_nonzero n E)).
    + intros Hn. unfold Py.div_int.
      now rewrite (float_of_int_overflow n Hn).
Qed.

Lemma truediv_nonfinite_policy (x : FuzzyBool) (v : Py.NonFinite) :
  (v = Py.NaN -> __truediv__ x (ScalarNonFinite v) = Ok CONFLICT)
  /\ (v <> Py.NaN -> __truediv__ x (ScalarNonFinite v) = Ok UNKNOWN).
Proof.
  destruct v; split; intros H; try discriminate; try reflexivity;
    contradiction.
Qed.

(** C7, as amended.  [/] never raises [ZeroDivisionError], and raises at
    all only on an int scalar too large to convert to a float, which gives
    [OverflowError].  Dividing by a value, a zero component of the divisor
    gives 0 for that component of the quotient and any other component
    gives the clamped ratio; dividing by the scalar zero, float or int,
    gives [UNKNOWN], by any other finite scalar in the float range the
    clamped ratios, by an infinity [UNKNOWN] and by NaN [CONFLICT].
    [FuzzyBool(0.5, 0.5) / FuzzyBool(0.0, 0.5)] has [t = 0] and [f = 1]. *)
Theorem division_fails_only_on_huge_int (x : FuzzyBool) (o : Operand) :
  (forall e, __truediv__ x o = Raise e ->
             exists n, o = ScalarInt n /\ (Py.int_limit <= Z.abs n)%Z
                       /\ e = OverflowError
                               "int too large to convert to float")
  /\ (forall y, o = Fuzzy y ->
      exists r, __truediv__ x o = Ok r
        /\ (t y == 0 -> t r = 0)
        /\ (~ t y == 0 -> t r = _clamp (t x / t y))
        /\ (f y == 0 -> f r = 0)
        /\ (~ f y == 0 -> f r = _clamp (f x / f y)))
  /\ (forall k, o = Scalar k ->
      (k == 0 -> __truediv__ x o = Ok UNKNOWN)
      /\ (~ k == 0 -> __truediv__ x o = Ok (new (t x / k) (f x / k))))
  /\ (forall n, o = ScalarInt n ->
      (n = 0%Z -> __truediv__ x o = Ok UNKNOWN)
      /\ (n <> 0%Z -> (Z.abs n < Py.int_limit)%Z ->
          __truediv__ x o
          = Ok (new (t x / inject_Z n) (f x / inject_Z n)))
      /\ ((Py.int_limit <= Z.abs n)%Z ->
          __truediv__ x o
          = Raise (OverflowError "int too large to convert to float")))
  /\ (forall v, o = ScalarNonFinite v ->
      (v = Py.NaN -> __truediv__ x o = Ok CONFLICT)
      /\ (v <> Py.NaN -> __truediv__ x o = Ok UNKNOWN))
  /\ (exists r, __truediv__ (new 0.5 0.5) (Fuzzy (new 0 0.5)) = Ok r
        /\ t r = 0 /\ f r == 1).
Proof.
  split.
  - intros e He. destruct o as [y | k | n | v].
    + destruct (truediv_fuzzy_policy x y) as (r & Hr & _). congruence.
    + destruct (truediv_scalar_policy x k) as [H0 H1].
      destruct (Qeq_dec k 0) as [Hk | Hk];
        [rewrite (H0 Hk) in He | rewrite (H1 Hk) in He]; discriminate.
    + destruct (truediv_int_policy x n) as (H0 & H1 & H2).
      destruct (Z.eq_dec n 0) as [Hn | Hn];
        [rewrite (H0 Hn) in He; discriminate |].
      destruct (Z.lt_ge_cases (Z.abs n) Py.int_limit) as [Hlt | Hge].
      * rewrite (H1 Hn Hlt) in He. discriminate.
      * exists n. rewrite (H2 Hge) in He. injection He as <-. auto.
    + destruct (truediv_nonfinite_policy x v) as [H0 H1].
      destruct v; first [rewrite H0 in He by reflexivity
                        | rewrite H1 in He by discriminate]; discriminate.
  - split; [intros y ->; apply truediv_fuzzy_policy |].
    split; [intros k ->; apply truediv_scalar_policy |].
    split; [intros n ->; apply truediv_int_policy |].
    split; [intros v ->; apply truediv_nonfinite_policy |].
    eexists. split; [reflexivity |]. split; reflexivity.
Qed.

Lemma division_fails_only_on_huge_int_witness :
  __truediv__ (new 0.5 0.3) (Fuzzy TRUE) = Ok (new 0.5 0)
  /\ __truediv__ (new 0.5 0.5) (Scalar 0) = Ok UNKNOWN
  /\ __truediv__ (new 0.8 0.6) (Scalar 2) = Ok (new (0.8 / 2) (0.6 / 2))
  /\ __truediv__ (new 0.8 0.6) (ScalarInt 2)
     = Ok (new (0.8 / inject_Z 2) (0.6 / inject_Z 2))
  /\ __truediv__ (new 0.8 0.6) (ScalarInt (- 10 ^ 400))
     = Raise (OverflowError "int too large to convert to float").
Proof.
  destruct (division_fails_only_on_huge_int (new 0.5 0.3) (Fuzzy TRUE))
    as (_ & Hf & _).
  destruct (Hf TRUE eq_refl) as (r & Hr & _ & Ht & Hz & _).
  destruct (division_fails_only_on_huge_int (new 0.5 0.5) (Scalar 0))
    as (_ & _ & Hs & _).
  destruct (division_fails_only_on_huge_int (new 0.8 0.6) (Scalar 2))
    as (_ & _ & Hs' & _).
  destruct (division_fails_only_on_huge_int (new 0.8 0.6) (ScalarInt 2))
    as (_ & _ & _ & Hi & _).
  destruct (division_fails_only_on_huge_int
              (new 0.8 0.6) (ScalarInt (- 10 ^ 400)))
    as (_ & _ & _ & Hi' & _).
  split.
  - rewrite Hr. f_equal. destruct r as [tr fr]. simpl in Ht, Hz.
    rewrite Ht by discriminate. rewrite Hz by reflexivity. reflexivity.
  - split; [exact (proj1 (Hs 0 eq_refl) (Qeq_refl 0)) |].
    split; [rewrite (proj2 (Hs' 2 eq_refl)) by discriminate; reflexivity |].
    split.
    + destruct (Hi 2%Z eq_refl) as (_ & H & _).
      apply H; [discriminate | reflexivity].
    + destruct (Hi' (- 10 ^ 400)%Z eq_refl) as (_ & _ & H).
      apply H. vm_compute. discriminate.
Defined.

(** C7 as stated fails: an int scalar beyond the float range is accepted
    by the [isinstance] guard, is not zero, and its conversion in
    [self.t / other] raises [OverflowError]. *)
Lemma division_fails_on_huge_int :
  __truediv__ (new 0.5 0.5) (ScalarInt (10 ^ 400))
  = Raise (OverflowError "int too large to convert to float")
  /\ ~ (forall (x : FuzzyBool) (o : Operand),
           exists r, __truediv__ x o = Ok r).
Proof.
  assert (H : __truediv__ (new 0.5 0.5) (ScalarInt (10 ^ 400))
              = Raise (OverflowError "int too large to convert to float"))
    by (vm_compute; reflexivity).
  split; [exact H |].
  intros Hall. destruct (Hall (new 0.5 0.5) (ScalarInt (10 ^ 400))) as (r & Hr).
  rewrite H in Hr. discriminate.
Qed.

(** ** Threshold predicates *)

(** C10.  The threshold comparison is inclusive: [is_true(h)] holds exactly
    when [truth >= h], and likewise [is_false], [is_unknown] and
    [is_conflict] on their components; a component equal to the threshold
    satisfies the predicate. *)
Theorem threshold_is_inclusive (x : FuzzyBool) (h : Q) :
  (is_true x h = true <-> h <= truth x)
  /\ (is_false x h = true <-> h <= falsity x)
  /\ (is_unknown x h = true <-> h <= unknown x)
  /\ (is_conflict x h = true <-> h <= conflict x)
  /\ is_true x (truth x) = true
  /\ is_false x (falsity x) = true
  /\ is_unknown x (unknown x) = true
  /\ is_conflict x (conflict x) = true.
Proof.
  unfold is_true, is_false, is_unknown, is_conflict, Py.ge.
  repeat split; try (apply Qle_bool_iff); try (apply Qle_refl);
    intros H; now apply Qle_bool_iff.
Qed.

Lemma threshold_is_inclusive_witness :
  is_true (new 0.5 0) default_threshold = true
  /\ is_true (new 0.4 0) default_threshold = false.
Proof.
  destruct (threshold_is_inclusive (new 0.5 0) default_threshold)
    as (H1 & _).
  destruct (threshold_is_inclusive (new 0.4 0) default_threshold)
    as (H2 & _).
  split.
  - apply H1. discriminate.
  - destruct (is_true (new 0.4 0) default_threshold) eqn:E; [| reflexivity].
    exfalso. apply (proj1 H2 eq_refl). reflexivity.
Defined.

(** ** Dominant state *)

Lemma first_max_snoc_smaller d i k v k1 v1 :
  first_max d i k v -> ~ v < v1 -> first_max (d ++ [(k1, v1)]) i k v.
Proof.
  intros (Hi & Hmax & Hfirst) Hle.
  assert (Hlen : (i < List.length d)%nat).
  { apply nth_error_Some. congruence. }
  repeat split.
  - rewrite nth_error_app1; assumption.
  - intros j k' v' Hj. destruct (Nat.lt_ge_cases j (List.length d)) as [Hlt | Hge].
    + rewrite nth_error_app1 in Hj by assumption. eauto.
    + rewrite nth_error_app2 in Hj by assumption.
      destruct (j - List.length d)%nat as [| n]; simpl in Hj.
      * injection Hj as <- <-. lra.
      * destruct n; discriminate.
  - intros j k' v' Hlt Hj.
    rewrite nth_error_app1 in Hj by lia. eauto.
Qed.

Lemma first_max_snoc_larger d i k v k1 v1 :
  first_max d i k v -> v < v1 ->
  first_max (d ++ [(k1, v1)]) (List.length d) k1 v1.
Proof.
  intros (Hi & Hmax & Hfirst) Hlt.
  repeat split.
  - rewrite nth_error_app2 by lia. now rewrite Nat.sub_diag.
  - intros j k' v' Hj. destruct (Nat.lt_ge_cases j (List.length d)) as [Hlt' | Hge].
    + rewrite nth_error_app1 in Hj by assumption.
      specialize (Hmax _ _ _ Hj). lra.
    + rewrite nth_error_app2 in Hj by assumption.
      destruct (j - List.length d)%nat as [| n]; simpl in Hj.
      * injection Hj as <- <-. lra.
      * destruct n; discriminate.
  - intros j k' v' Hlt' Hj.
    rewrite nth_error_app1 in Hj by assumption.
    specialize (Hmax _ _ _ Hj). lra.
Qed.

Lemma max_key_from_first_max items :
  forall seen i k v,
    first_max seen i k v ->
    exists i' v',
      first_max (seen ++ items) i' (Py.max_key_from k v items) v'.
Proof.
  induction items as [| [k1 v1] rest IH]; intros seen i k v H.
  - rewrite app_nil_r. now exists i, v.
  - simpl. replace (seen ++ (k1, v1) :: rest)
      with ((seen ++ [(k1, v1)]) ++ rest)
      by (now rewrite <- app_assoc).
    destruct (gt_spec v1 v) as [Hgt | Hle].
    + eapply IH. eapply first_max_snoc_larger; eassumption.
    + eapply IH. eapply first_max_snoc_smaller; eassumption.
Qed.

Lemma max_key_first_max d k0 v0 :
  exists i k v, Py.max_key ((k0, v0) :: d) = Ok k
                /\ first_max ((k0, v0) :: d) i k v.
Proof.
  assert (H0 : first_max [(k0, v0)] 0 k0 v0).
  { repeat split.
    - intros [| [| j]] k' v' Hj; simpl in Hj; try discriminate.
      injection Hj as <- <-. lra.
    - intros j k' v' Hlt. lia. }
  destruct (max_key_from_first_max d _ _ _ _ H0) as (i & v & H).
  exists i, (Py.max_key_from k0 v0 d), v. split; [reflexivity | exact H].
Qed.

(** C9.  [dominant_state] returns the first name, in the order "true",
    "false", "unknown", "conflict", whose derived component attains the
    maximum of the four; [FuzzyBool(0.5, 0.5)], whose four components are
    all 0.25, gives "true". *)
Theorem dominant_state_first_maximum (x : FuzzyBool) :
  components x
  = [ ("true"%string, truth x); ("false"%string, falsity x);
      ("unknown"%string, unknown x); ("conflict"%string, conflict x) ]
  /\ (exists i k v,
         dominant_state x = Ok k /\ first_max (components x) i k v)
  /\ map snd (components (new 0.5 0.5)) = [0.25; 0.25; 0.25; 0.25]
  /\ dominant_state (new 0.5 0.5) = Ok "true"%string.
Proof.
  split; [reflexivity |].
  split; [apply max_key_first_max |].
  split; reflexivity.
Qed.

(** ** [accumulate] *)

Lemma extend_values_ok items :
  forall values,
    forallb is_fuzzy items = true ->
    extend_values values items = Ok (values ++ flat_map fuzzy_of items).
Proof.
  induction items as [| item rest IH]; intros values H; simpl.
  - now rewrite app_nil_r.
  - destruct item; simpl in H; try discriminate.
    rewrite IH by assumption. simpl. now rewrite <- app_assoc.
Qed.

Lemma extend_values_bad items :
  forall values,
    forallb is_fuzzy items = false ->
    exists msg, extend_values values items = Raise (TypeError msg).
Proof.
  induction items as [| item rest IH]; intros values H; simpl in *.
  - discriminate.
  - destruct item; simpl in H; eauto.
Qed.

Lemma flatten_args_ok args :
  forall values,
    forallb acceptable args = true ->
    flatten_args values args = Ok (values ++ flattened args).
Proof.
  induction args as [| arg rest IH]; intros values H; simpl.
  - now rewrite app_nil_r.
  - simpl in H. apply andb_true_iff in H as [Harg Hrest].
    unfold flattened. simpl. fold (flattened rest).
    destruct arg as [x | name items | s | name]; simpl in *;
      try discriminate.
    + rewrite IH by assumption. now rewrite <- app_assoc.
    + rewrite extend_values_ok by assumption. simpl.
      rewrite IH by assumption. now rewrite <- app_assoc.
    + rewrite extend_values_ok by assumption. simpl.
      rewrite IH by assumption. now rewrite <- app_assoc.
Qed.

Lemma flatten_args_bad args :
  forall values,
    forallb acceptable args = false ->
    exists msg, flatten_args values args = Raise (TypeError msg).
Proof.
  induction args as [| arg rest IH]; intros values H; simpl in *.
  - discriminate.
  - apply andb_false_iff in H.
    destruct arg as [x | name items | s | name]; simpl in *.
    + destruct H as [H | H]; [discriminate | now apply IH].
    + destruct (forallb is_fuzzy items) eqn:E.
      * rewrite extend_values_ok by assumption. simpl.
        destruct H as [H | H]; [discriminate | now apply IH].
      * destruct (extend_values_bad items values E) as (msg & ->).
        now exists msg.
    + match goal with
      | |- context [extend_values values ?l] =>
          destruct (forallb is_fuzzy l) eqn:E;
          [ rewrite extend_values_ok by assumption; simpl;
            destruct H as [H | H]; [discriminate | now apply IH]
          | destruct (extend_values_bad l values E) as (msg & ->);
            now exists msg ]
      end.
    + eauto.
Qed.

(** C6.  [accumulate] left-folds [+] over its arguments flattened one
    level.  It raises [TypeError] exactly when some argument is neither a
    [FuzzyBool] nor an iterable of [FuzzyBool]s, whatever was collected
    before; otherwise it raises [ValueError] when nothing was collected,
    and returns the fold when something was.  [accumulate([])] raises
    [ValueError] and [accumulate(TRUE, "bad")] raises [TypeError]. *)
Theorem accumulate_fold_or_error (args : list PyObj) :
  (forallb acceptable args = true ->
   match flattened args with
   | [] => accumulate args
           = Raise (ValueError "Cannot accumulate empty sequence")
   | first :: others => accumulate args = Ok (fold_left __add__ others first)
   end)
  /\ (forallb acceptable args = false ->
      exists msg, accumulate args = Raise (TypeError msg))
  /\ accumulate [PIter "list" []]
     = Raise (ValueError "Cannot accumulate empty sequence")
  /\ accumulate [PFuzzy TRUE; PStr "bad"]
     = Raise (TypeError "Expected FuzzyBool, got str").
Proof.
  split; [| split; [| split; reflexivity]].
  - intros H. unfold accumulate.
    rewrite (flatten_args_ok args [] H). simpl.
    now destruct (flattened args).
  - intros H. unfold accumulate.
    destruct (flatten_args_bad args [] H) as (msg & ->). now exists msg.
Qed.

Lemma accumulate_fold_or_error_witness :
  accumulate [PFuzzy (new 0.5 0); PIter "list" [PFuzzy (new 0.3 0);
                                                PFuzzy (new 0.2 0)]]
  = Ok (__add__ (__add__ (new 0.5 0) (new 0.3 0)) (new 0.2 0))
  /\ (exists msg,
         accumulate [PFuzzy TRUE; PIter "list" [PIter "list" [PFuzzy TRUE]]]
         = Raise (TypeError msg))
  /\ (exists msg,
         accumulate [PFuzzy TRUE; PAtom "int"] = Raise (TypeError msg)).
Proof.
  split; [| split].
  - exact (proj1 (accumulate_fold_or_error
                    [PFuzzy (new 0.5 0);
                     PIter "list" [PFuzzy (new 0.3 0); PFuzzy (new 0.2 0)]])
                 eq_refl).
  - exact (proj1 (proj2 (accumulate_fold_or_error
                    [PFuzzy TRUE; PIter "list" [PIter "list" [PFuzzy TRUE]]]))
                 eq_refl).
  - exact (proj1 (proj2 (accumulate_fold_or_error
                    [PFuzzy TRUE; PAtom "int"]))
                 eq_refl).
Defined.

(** ** Hashing *)

Lemma lt_compat (a a' b b' : Q) :
  a == a' -> b == b' -> Py.lt a b = Py.lt a' b'.
Proof.
  intros Ha Hb.
  destruct (lt_spec a b), (lt_spec a' b'); try reflexivity; exfalso; lra.
Qed.

Lemma round_half_even_compat (x y : Q) :
  x == y -> Py.round_half_even x = Py.round_half_even y.
Proof.
  intros E. unfold Py.round_half_even.
  rewrite (Qfloor_comp x y E).
  assert (Er : x - inject_Z (Qfloor y) == y - inject_Z (Qfloor y))
    by (rewrite E; reflexivity).
  rewrite (lt_compat _ _ _ _ Er (Qeq_refl (1 # 2))).
  rewrite (lt_compat _ _ _ _ (Qeq_refl (1 # 2)) Er).
  reflexivity.
Qed.

Lemma round_compat (x y : Q) (ndigits : nat) :
  x == y -> Py.round x ndigits = Py.round y ndigits.
Proof.
  intros E. unfold Py.round. apply Qred_complete.
  set (scale := inject_Z (10 ^ Z.of_nat ndigits)).
  rewrite (round_half_even_compat (x * scale) (y * scale)); [reflexivity |].
  now rewrite E.
Qed.

(** Values whose components are the same numbers have the same hash. *)
Lemma hash_of_same_numbers (hash : Q * Q -> Z) (x y : FuzzyBool) :
  t x == t y -> f x == f y -> __hash__ hash x = __hash__ hash y.
Proof.
  intros Ht Hf. unfold __hash__, hash_key.
  now rewrite (round_compat _ _ 9 Ht), (round_compat _ _ 9 Hf).
Qed.

(** C8.  The hash is not consistent with [==]:
    [FuzzyBool(4e-10, 0.0) == FuzzyBool(6e-10, 0.0)] holds, the components
    differing by 2e-10, but the first is hashed as the tuple [(0.0, 0.0)]
    and the second as [(1e-09, 0.0)].  So it is false that [==] values
    hash equally under every builtin [hash]. *)
Theorem hash_inconsistent_with_eq :
  __eq__ (new 4e-10 0) (new 6e-10 0) = true
  /\ hash_key (new 4e-10 0) = (0, 0)
  /\ hash_key (new 6e-10 0) = (1 # 1000000000, 0)
  /\ hash_key (new 4e-10 0) <> hash_key (new 6e-10 0)
  /\ ~ (forall (hash : Q * Q -> Z) (a b : FuzzyBool),
           valid a -> valid b ->
           __eq__ a b = true -> __hash__ hash a = __hash__ hash b).
Proof.
  set (x := new 4e-10 0). set (y := new 6e-10 0).
  assert (Heq : __eq__ x y = true) by (vm_compute; reflexivity).
  assert (Hx : hash_key x = (0, 0)) by (vm_compute; reflexivity).
  assert (Hy : hash_key y = (1 # 1000000000, 0)) by (vm_compute; reflexivity).
  repeat (split; [assumption |]).
  split.
  - rewrite Hx, Hy. discriminate.
  - intros H.
    specialize (H (fun key => Qnum (fst key)) x y
                  (new_valid _ _) (new_valid _ _) Heq).
    unfold __hash__ in H. rewrite Hx, Hy in H. discriminate.
Qed.

(** ** Binary64 evaluation of the scenarios *)

Module Binary64Facts.
Import PrimFloat Binary64.
Local Open Scope float_scope.
#[local] Set Warnings "-inexact-float".

(** The constructor maps NaN and the infinities into [0, 1] as well:
    [min(1.0, nan)] keeps [1.0], since [nan < 1.0] is false. *)
Example binary64_clamp_nonfinite :
  _clamp nan = 1 /\ _clamp infinity = 1 /\ _clamp neg_infinity = 0
  /\ _clamp (-0) = 0 /\ new 1.5 (-0.3) = new 1 0.
Proof. repeat split. Qed.

Example binary64_and_scenario :
  close (t (__and__ (new 0.8 0.2) (new 0.6 0.3))) 0.48 = true
  /\ close (f (__and__ (new 0.8 0.2) (new 0.6 0.3))) 0.44 = true.
Proof. split; reflexivity. Qed.

Example binary64_div_scenario :
  exists r, __truediv__ (new 0.5 0.5) (new 0 0.5) = Ok r
            /\ t r = 0 /\ close (f r) 1 = true.
Proof. eexists. repeat split. Qed.

Example binary64_add_scenario :
  close (t (__add__ (__add__ (new 0.3 0) (new 0.3 0)) (new 0.3 0))) 0.657
  = true
  /\ __eq__ (__add__ (new 1 0) (new 1 0)) (new 1 0) = true.
Proof. split; reflexivity. Qed.

Example binary64_eq_of_hash_counterexample :
  __eq__ (new 4e-10 0) (new 6e-10 0) = true.
Proof. reflexivity. Qed.

(** Scalars that are not finite, as [x * k] and [x / k] clamp them. *)
Example binary64_nonfinite_scalars :
  _clamp (0.5 * infinity) = 1 /\ _clamp (0 * infinity) = 1
  /\ _clamp (0.5 * neg_infinity) = 0 /\ _clamp (0 * neg_infinity) = 1
  /\ _clamp (0.5 * nan) = 1
  /\ _clamp (0.5 / infinity) = 0 /\ _clamp (0.5 / neg_infinity) = 0
  /\ _clamp (0.5 / nan) = 1.
Proof. repeat split. Qed.

End Binary64Facts.

(** * Further properties of the operators *)

(** ** Components of the operator results on valid operands *)

Lemma and_components (x y : FuzzyBool) :
  valid x -> valid y ->
  t (__and__ x y) == t x * t y /\ f (__and__ x y) == f x + f y - f x * f y.
Proof.
  intros [Hxt Hxf] [Hyt Hyf]. split; apply clamp_inside.
  - now apply t_norm_range.
  - now apply s_norm_range.
Qed.

Lemma or_components (x y : FuzzyBool) :
  valid x -> valid y ->
  t (__or__ x y) == t x + t y - t x * t y /\ f (__or__ x y) == f x * f y.
Proof.
  intros [Hxt Hxf] [Hyt Hyf]. split; apply clamp_inside.
  - now apply s_norm_range.
  - now apply t_norm_range.
Qed.

Lemma add_components (x y : FuzzyBool) :
  valid x -> valid y ->
  t (__add__ x y) == t x + t y - t x * t y
  /\ f (__add__ x y) == f x + f y - f x * f y.
Proof.
  intros [Hxt Hxf] [Hyt Hyf]. split; apply clamp_inside;
    now apply s_norm_range.
Qed.

Lemma invert_valid (x : FuzzyBool) : valid (__invert__ x).
Proof. apply new_valid. Qed.

Lemma and_valid (x y : FuzzyBool) : valid (__and__ x y).
Proof. apply new_valid. Qed.

Lemma or_valid (x y : FuzzyBool) : valid (__or__ x y).
Proof. apply new_valid. Qed.

Lemma add_valid (x y : FuzzyBool) : valid (__add__ x y).
Proof. apply new_valid. Qed.

Lemma rshift_components (x y : FuzzyBool) :
  valid x -> valid y ->
  t (__rshift__ x y) == f x + t y - f x * t y
  /\ f (__rshift__ x y) == t x * f y.
Proof.
  intros Hx Hy. unfold __rshift__.
  destruct (invert_components x Hx) as [Ht Hf].
  destruct (or_components (__invert__ x) y (invert_valid x) Hy) as [Ht' Hf'].
  rewrite Ht', Hf', Ht, Hf. split; reflexivity.
Qed.

(** ** Negation *)

(** X1.  Negation swaps the two stored components and is an involution:
    [~~x == x] for every value with components in [0, 1]. *)
Theorem invert_involution (x : FuzzyBool) :
  valid x ->
  t (__invert__ x) == f x /\ f (__invert__ x) == t x
  /\ t (__invert__ (__invert__ x)) == t x
  /\ f (__invert__ (__invert__ x)) == f x
  /\ __eq__ (__invert__ (__invert__ x)) x = true.
Proof.
  intros Hx.
  destruct (invert_components x Hx) as [Ht Hf].
  destruct (invert_components (__invert__ x) (invert_valid x)) as [Ht' Hf'].
  assert (Et : t (__invert__ (__invert__ x)) == t x) by now rewrite Ht', Hf.
  assert (Ef : f (__invert__ (__invert__ x)) == f x) by now rewrite Hf', Ht.
  repeat (split; [assumption |]). now apply eq_of_Qeq.
Qed.

Lemma invert_involution_witness :
  valid (new 0.7 0.2)
  /\ __eq__ (__invert__ (__invert__ (new 0.7 0.2))) (new 0.7 0.2) = true.
Proof.
  assert (Hx : valid (new 0.7 0.2)) by (repeat split; discriminate).
  split; [exact Hx |].
  exact (proj2 (proj2 (proj2 (proj2 (invert_involution (new 0.7 0.2) Hx))))).
Defined.

(** X2.  Negation exchanges the derived components truth and falsity and
    leaves unknown and conflict as they are. *)
Theorem invert_exchanges_truth_and_falsity (x : FuzzyBool) :
  valid x ->
  truth (__invert__ x) == falsity x
  /\ falsity (__invert__ x) == truth x
  /\ unknown (__invert__ x) == unknown x
  /\ conflict (__invert__ x) == conflict x.
Proof.
  intros Hx. destruct (invert_components x Hx) as [Ht Hf].
  unfold truth, falsity, unknown, conflict, _t_norm.
  rewrite Ht, Hf. repeat split; ring.
Qed.

Lemma invert_exchanges_truth_and_falsity_witness :
  valid (new 0.8 0.1)
  /\ truth (__invert__ (new 0.8 0.1)) == falsity (new 0.8 0.1).
Proof.
  assert (Hx : valid (new 0.8 0.1)) by (repeat split; discriminate).
  split; [exact Hx |].
  exact (proj1 (invert_exchanges_truth_and_falsity (new 0.8 0.1) Hx)).
Defined.

(** ** Conjunction and disjunction *)

(** X3.  On values with components in [0, 1], [&] is commutative and
    associative, [TRUE] is its neutral element and [FALSE] absorbs. *)
Theorem and_laws (x y z : FuzzyBool) :
  valid x -> valid y -> valid z ->
  __eq__ (__and__ x y) (__and__ y x) = true
  /\ __eq__ (__and__ (__and__ x y) z) (__and__ x (__and__ y z)) = true
  /\ __eq__ (__and__ x TRUE) x = true
  /\ __eq__ (__and__ x FALSE) FALSE = true.
Proof.
  intros Hx Hy Hz.
  assert (HT : valid TRUE) by apply new_valid.
  assert (HF : valid FALSE) by apply new_valid.
  destruct (and_components x y Hx Hy) as [Exy Fxy].
  destruct (and_components y x Hy Hx) as [Eyx Fyx].
  destruct (and_components y z Hy Hz) as [Eyz Fyz].
  destruct (and_components _ z (and_valid x y) Hz) as [El Fl].
  destruct (and_components x _ Hx (and_valid y z)) as [Er Fr].
  destruct (and_components x TRUE Hx HT) as [ET FT].
  destruct (and_components x FALSE Hx HF) as [EF FF].
  change (t TRUE) with 1 in ET. change (f TRUE) with 0 in FT.
  change (t FALSE) with 0 in EF. change (f FALSE) with 1 in FF.
  repeat split; apply eq_of_Qeq.
  - rewrite Exy, Eyx. ring.
  - rewrite Fxy, Fyx. ring.
  - rewrite El, Er, Exy, Eyz. ring.
  - rewrite Fl, Fr, Fxy, Fyz. ring.
  - rewrite ET. ring.
  - rewrite FT. ring.
  - rewrite EF. change (t FALSE) with 0. ring.
  - rewrite FF. change (f FALSE) with 1. ring.
Qed.

Lemma and_laws_witness :
  __eq__ (__and__ (new 0.8 0.2) (new 0.6 0.3))
         (__and__ (new 0.6 0.3) (new 0.8 0.2)) = true
  /\ __eq__ (__and__ (new 0.8 0.2) FALSE) FALSE = true.
Proof.
  assert (Hx : valid (new 0.8 0.2)) by (repeat split; discriminate).
  assert (Hy : valid (new 0.6 0.3)) by (repeat split; discriminate).
  destruct (and_laws (new 0.8 0.2) (new 0.6 0.3) (new 0.6 0.3) Hx Hy Hy)
    as (Hc & _ & _ & Ha).
  split; [exact Hc | exact Ha].
Defined.

(** X4.  On values with components in [0, 1], [|] is commutative and
    associative, [FALSE] is its neutral element and [TRUE] absorbs. *)
Theorem or_laws (x y z : FuzzyBool) :
  valid x -> valid y -> valid z ->
  __eq__ (__or__ x y) (__or__ y x) = true
  /\ __eq__ (__or__ (__or__ x y) z) (__or__ x (__or__ y z)) = true
  /\ __eq__ (__or__ x FALSE) x = true
  /\ __eq__ (__or__ x TRUE) TRUE = true.
Proof.
  intros Hx Hy Hz.
  assert (HT : valid TRUE) by apply new_valid.
  assert (HF : valid FALSE) by apply new_valid.
  destruct (or_components x y Hx Hy) as [Exy Fxy].
  destruct (or_components y x Hy Hx) as [Eyx Fyx].
  destruct (or_components y z Hy Hz) as [Eyz Fyz].
  destruct (or_components _ z (or_valid x y) Hz) as [El Fl].
  destruct (or_components x _ Hx (or_valid y z)) as [Er Fr].
  destruct (or_components x TRUE Hx HT) as [ET FT].
  destruct (or_components x FALSE Hx HF) as [EF FF].
  change (t TRUE) with 1 in ET. change (f TRUE) with 0 in FT.
  change (t FALSE) with 0 in EF. change (f FALSE) with 1 in FF.
  repeat split; apply eq_of_Qeq.
  - rewrite Exy, Eyx. ring.
  - rewrite Fxy, Fyx. ring.
  - rewrite El, Er, Exy, Eyz. ring.
  - rewrite Fl, Fr, Fxy, Fyz. ring.
  - rewrite EF. ring.
  - rewrite FF. ring.
  - rewrite ET. change (t TRUE) with 1. ring.
  - rewrite FT. change (f TRUE) with 0. ring.
Qed.

Lemma or_laws_witness :
  __eq__ (__or__ (new 0.8 0.2) (new 0.6 0.3))
         (__or__ (new 0.6 0.3) (new 0.8 0.2)) = true
  /\ __eq__ (__or__ (new 0.8 0.2) TRUE) TRUE = true.
Proof.
  assert (Hx : valid (new 0.8 0.2)) by (repeat split; discriminate).
  assert (Hy : valid (new 0.6 0.3)) by (repeat split; discriminate).
  destruct (or_laws (new 0.8 0.2) (new 0.6 0.3) (new 0.6 0.3) Hx Hy Hy)
    as (Hc & _ & _ & Ha).
  split; [exact Hc | exact Ha].
Defined.

(** X5.  On the crisp values [from_crisp(a)], [from_crisp(b)] the logical
    operators are the Boolean ones: negation, conjunction, disjunction,
    implication and bi-implication return the crisp value of [not a],
    [a and b], [a or b], [(not a) or b] and [a == b]. *)
Theorem crisp_operators_are_boolean (a b : bool) :
  __invert__ (from_crisp a) = from_crisp (negb a)
  /\ __and__ (from_crisp a) (from_crisp b) = from_crisp (a && b)
  /\ __or__ (from_crisp a) (from_crisp b) = from_crisp (a || b)
  /\ __rshift__ (from_crisp a) (from_crisp b) = from_crisp (implb a b)
  /\ iff (from_crisp a) (from_crisp b) = from_crisp (Bool.eqb a b).
Proof. destruct a, b; repeat split. Qed.

(** ** Implication and bi-implication *)

(** X6.  On values with components in [0, 1], [x >> y] has
    [t = x.f + y.t - x.f * y.t] and [f = x.t * y.f]; it satisfies
    contraposition, [x >> y == ~y >> ~x]; and [FALSE >> y] and [x >> TRUE]
    are [TRUE]. *)
Theorem rshift_laws (x y : FuzzyBool) :
  valid x -> valid y ->
  t (__rshift__ x y) == f x + t y - f x * t y
  /\ f (__rshift__ x y) == t x * f y
  /\ __eq__ (__rshift__ x y) (__rshift__ (__invert__ y) (__invert__ x)) = true
  /\ __eq__ (__rshift__ FALSE y) TRUE = true
  /\ __eq__ (__rshift__ x TRUE) TRUE = true.
Proof.
  intros Hx Hy.
  assert (HT : valid TRUE) by apply new_valid.
  assert (HF : valid FALSE) by apply new_valid.
  destruct (rshift_components x y Hx Hy) as [Et Ef].
  destruct (rshift_components _ _ (invert_valid y) (invert_valid x))
    as [Et' Ef'].
  destruct (invert_components x Hx) as [Ixt Ixf].
  destruct (invert_components y Hy) as [Iyt Iyf].
  destruct (rshift_components FALSE y HF Hy) as [EFt EFf].
  destruct (rshift_components x TRUE Hx HT) as [ETt ETf].
  change (t FALSE) with 0 in EFf. change (f FALSE) with 1 in EFt.
  change (t TRUE) with 1 in ETt. change (f TRUE) with 0 in ETf.
  split; [exact Et |]. split; [exact Ef |].
  repeat split; apply eq_of_Qeq.
  - rewrite Et, Et', Iyf, Ixt. ring.
  - rewrite Ef, Ef', Iyt, Ixf. ring.
  - rewrite EFt. change (t TRUE) with 1. ring.
  - rewrite EFf. change (f TRUE) with 0. ring.
  - rewrite ETt. change (t TRUE) with 1. ring.
  - rewrite ETf. change (f TRUE) with 0. ring.
Qed.

Lemma rshift_laws_witness :
  valid (new 0.7 0.2) /\ valid (new 0.5 0.4)
  /\ t (__rshift__ (new 0.7 0.2) (new 0.5 0.4)) == 0.2 + 0.5 - 0.2 * 0.5
  /\ f (__rshift__ (new 0.7 0.2) (new 0.5 0.4)) == 0.7 * 0.4.
Proof.
  assert (Hx : valid (new 0.7 0.2)) by (repeat split; discriminate).
  assert (Hy : valid (new 0.5 0.4)) by (repeat split; discriminate).
  destruct (rshift_laws (new 0.7 0.2) (new 0.5 0.4) Hx Hy) as (Ht & Hf & _).
  split; [exact Hx |]. split; [exact Hy |]. split; [exact Ht | exact Hf].
Defined.

(** X7.  Bi-implication is symmetric, [x.iff(y) == y.iff(x)], on values
    with components in [0, 1], and its components are the product of the
    two implications' [t] and the probabilistic sum of their [f]. *)
Theorem iff_symmetric (x y : FuzzyBool) :
  valid x -> valid y ->
  t (iff x y) == (f x + t y - f x * t y) * (f y + t x - f y * t x)
  /\ f (iff x y) == t x * f y + t y * f x - (t x * f y) * (t y * f x)
  /\ __eq__ (iff x y) (iff y x) = true.
Proof.
  intros Hx Hy.
  assert (Hxy : valid (__rshift__ x y)) by apply new_valid.
  assert (Hyx : valid (__rshift__ y x)) by apply new_valid.
  destruct (rshift_components x y Hx Hy) as [Et Ef].
  destruct (rshift_components y x Hy Hx) as [Et' Ef'].
  destruct (and_components _ _ Hxy Hyx) as [At Af].
  destruct (and_components _ _ Hyx Hxy) as [At' Af'].
  fold (iff x y) in At, Af. fold (iff y x) in At', Af'.
  split; [rewrite At, Et, Et'; reflexivity |].
  split; [rewrite Af, Ef, Ef'; reflexivity |].
  apply eq_of_Qeq.
  - rewrite At, At'. ring.
  - rewrite Af, Af'. ring.
Qed.

Lemma iff_symmetric_witness :
  valid (new 0.7 0.2) /\ valid (new 0.5 0.4)
  /\ __eq__ (iff (new 0.7 0.2) (new 0.5 0.4))
            (iff (new 0.5 0.4) (new 0.7 0.2)) = true.
Proof.
  assert (Hx : valid (new 0.7 0.2)) by (repeat split; discriminate).
  assert (Hy : valid (new 0.5 0.4)) by (repeat split; discriminate).
  split; [exact Hx |]. split; [exact Hy |].
  exact (proj2 (proj2 (iff_symmetric (new 0.7 0.2) (new 0.5 0.4) Hx Hy))).
Defined.

(** ** Idempotence *)

Lemma square_fixed (a : Q) : a * a == a <-> a == 0 \/ a == 1.
Proof.
  split.
  - intros H. assert (E : a * (a - 1) == 0) by (ring_simplify; lra).
    apply Qmult_integral in E. destruct E as [E | E]; [now left | right; lra].
  - intros [E | E]; rewrite E; reflexivity.
Qed.

(** X8.  [&] and [+] are not idempotent: on a value with components in
    [0, 1], [x & x] has the components of [x] exactly when both components
    are 0 or 1, and so has [x + x]. *)
Theorem and_add_idempotent_only_on_corners (x : FuzzyBool) :
  valid x ->
  ((t (__and__ x x) == t x /\ f (__and__ x x) == f x)
   <-> ((t x == 0 \/ t x == 1) /\ (f x == 0 \/ f x == 1)))
  /\ ((t (__add__ x x) == t x /\ f (__add__ x x) == f x)
      <-> ((t x == 0 \/ t x == 1) /\ (f x == 0 \/ f x == 1))).
Proof.
  intros Hx.
  destruct (and_components x x Hx Hx) as [At Af].
  destruct (add_components x x Hx Hx) as [St Sf].
  rewrite At, Af, St, Sf.
  rewrite <- (square_fixed (t x)), <- (square_fixed (f x)).
  split; split; intros [H1 H2]; split; lra.
Qed.

Lemma and_add_idempotent_only_on_corners_witness :
  valid (new 0.5 0) /\ ~ t (__and__ (new 0.5 0) (new 0.5 0)) == t (new 0.5 0).
Proof.
  assert (Hx : valid (new 0.5 0)) by (repeat split; discriminate).
  split; [exact Hx |].
  intros H.
  destruct (and_add_idempotent_only_on_corners (new 0.5 0) Hx) as [Hand _].
  assert (Hf : f (__and__ (new 0.5 0) (new 0.5 0)) == f (new 0.5 0))
    by reflexivity.
  destruct (proj1 Hand (conj H Hf)) as [[E | E] _]; discriminate E.
Defined.

(** ** Accumulation *)

(** X9.  On values with components in [0, 1], [+] is commutative and
    associative, never lowers a component of its left operand, and
    [CONFLICT] absorbs. *)
Theorem add_laws (x y z : FuzzyBool) :
  valid x -> valid y -> valid z ->
  __eq__ (__add__ x y) (__add__ y x) = true
  /\ __eq__ (__add__ (__add__ x y) z) (__add__ x (__add__ y z)) = true
  /\ t x <= t (__add__ x y) /\ f x <= f (__add__ x y)
  /\ __eq__ (__add__ x CONFLICT) CONFLICT = true.
Proof.
  intros Hx Hy Hz.
  assert (HC : valid CONFLICT) by apply new_valid.
  destruct (add_components x y Hx Hy) as [Exy Fxy].
  destruct (add_components y x Hy Hx) as [Eyx Fyx].
  destruct (add_components y z Hy Hz) as [Eyz Fyz].
  destruct (add_components _ z (add_valid x y) Hz) as [El Fl].
  destruct (add_components x _ Hx (add_valid y z)) as [Er Fr].
  destruct (add_components x CONFLICT Hx HC) as [EC FC].
  change (t CONFLICT) with 1 in EC. change (f CONFLICT) with 1 in FC.
  destruct Hx as [Hxt Hxf], Hy as [Hyt Hyf].
  split; [apply eq_of_Qeq; [rewrite Exy, Eyx | rewrite Fxy, Fyx]; ring |].
  split; [apply eq_of_Qeq;
          [rewrite El, Er, Exy, Eyz | rewrite Fl, Fr, Fxy, Fyz]; ring |].
  split; [rewrite Exy; nra |].
  split; [rewrite Fxy; nra |].
  apply eq_of_Qeq.
  - rewrite EC. change (t CONFLICT) with 1. ring.
  - rewrite FC. change (f CONFLICT) with 1. ring.
Qed.

Lemma add_laws_witness :
  __eq__ (__add__ (new 0.5 0.3) (new 0.4 0.2))
         (__add__ (new 0.4 0.2) (new 0.5 0.3)) = true
  /\ t (new 0.5 0.3) <= t (__add__ (new 0.5 0.3) (new 0.4 0.2)).
Proof.
  assert (Hx : valid (new 0.5 0.3)) by (repeat split; discriminate).
  assert (Hy : valid (new 0.4 0.2)) by (repeat split; discriminate).
  destruct (add_laws (new 0.5 0.3) (new 0.4 0.2) (new 0.4 0.2) Hx Hy Hy)
    as (Hc & _ & Hm & _).
  split; [exact Hc | exact Hm].
Defined.

(** ** [accumulate] as a product *)

Lemma fold_add_complement (vs : list FuzzyBool) :
  forall v,
    valid v -> Forall valid vs ->
    valid (fold_left __add__ vs v)
    /\ 1 - t (fold_left __add__ vs v)
       == (1 - t v) * complement_product t vs
    /\ 1 - f (fold_left __add__ vs v)
       == (1 - f v) * complement_product f vs.
Proof.
  induction vs as [| a vs IH]; intros v Hv Hvs; simpl.
  - split; [exact Hv |]. split; ring.
  - inversion Hvs as [| ? ? Ha Hvs']; subst.
    destruct (IH (__add__ v a) (add_valid v a) Hvs') as (Hr & Et & Ef).
    destruct (add_components v a Hv Ha) as [At Af].
    split; [exact Hr |].
    split; [rewrite Et, At | rewrite Ef, Af]; ring.
Qed.

Lemma complement_product_perm (c : FuzzyBool -> Q) (l l' : list FuzzyBool) :
  Permutation l l' -> complement_product c l == complement_product c l'.
Proof.
  induction 1 as [| a l l' _ IH | a b l | l l' l'' _ IH1 _ IH2]; simpl.
  - reflexivity.
  - now rewrite IH.
  - ring.
  - now rewrite IH1.
Qed.

Lemma accumulate_of_flattened (args : list PyObj) :
  forallb acceptable args = true ->
  accumulate args
  = match flattened args with
    | [] => Raise (ValueError "Cannot accumulate empty sequence")
    | first :: others => Ok (fold_left __add__ others first)
    end.
Proof.
  intros H. unfold accumulate. now rewrite (flatten_args_ok args [] H).
Qed.

Lemma accumulate_complement (args : list PyObj) :
  forallb acceptable args = true ->
  flattened args <> [] ->
  Forall valid (flattened args) ->
  exists r,
    accumulate args = Ok r
    /\ valid r
    /\ t r == 1 - complement_product t (flattened args)
    /\ f r == 1 - complement_product f (flattened args).
Proof.
  intros Hacc Hne Hval. rewrite (accumulate_of_flattened args Hacc).
  destruct (flattened args) as [| v vs]; [congruence |].
  inversion Hval as [| ? ? Hv Hvs]; subst.
  destruct (fold_add_complement vs v Hv Hvs) as (Hr & Et & Ef).
  eexists. split; [reflexivity |]. split; [exact Hr |].
  simpl. split; lra.
Qed.

(** X10.  When every argument is a [FuzzyBool] or an iterable of them, at
    least one value is collected and the values have components in [0, 1],
    [accumulate] returns the value with [T = 1 - prod(1 - Ti)] and
    [F = 1 - prod(1 - Fi)] over the collected values. *)
Theorem accumulate_is_complement_product (args : list PyObj) :
  forallb acceptable args = true ->
  flattened args <> [] ->
  Forall valid (flattened args) ->
  exists r,
    accumulate args = Ok r
    /\ valid r
    /\ t r == 1 - complement_product t (flattened args)
    /\ f r == 1 - complement_product f (flattened args).
Proof. apply accumulate_complement. Qed.

Lemma accumulate_is_complement_product_witness :
  exists r,
    accumulate [PIter "list" [PFuzzy (new 0.3 0); PFuzzy (new 0.3 0);
                              PFuzzy (new 0.3 0)]] = Ok r
    /\ t r == 1 - (1 - 0.3) * ((1 - 0.3) * ((1 - 0.3) * 1)).
Proof.
  destruct (accumulate_is_complement_product
              [PIter "list" [PFuzzy (new 0.3 0); PFuzzy (new 0.3 0);
                             PFuzzy (new 0.3 0)]])
    as (r & Hr & _ & Ht & _).
  - reflexivity.
  - discriminate.
  - repeat constructor; discriminate.
  - exists r. split; [exact Hr | exact Ht].
Defined.

(** X11.  The result of [accumulate] does not depend on the order of the
    collected values: two calls whose collected values, with components in
    [0, 1], are permutations of each other return [==] values. *)
Theorem accumulate_order_independent (args args' : list PyObj) :
  forallb acceptable args = true ->
  forallb acceptable args' = true ->
  flattened args <> [] ->
  Forall valid (flattened args) ->
  Permutation (flattened args) (flattened args') ->
  exists r r',
    accumulate args = Ok r /\ accumulate args' = Ok r'
    /\ __eq__ r r' = true.
Proof.
  intros Hacc Hacc' Hne Hval Hperm.
  assert (Hne' : flattened args' <> []).
  { intros E. rewrite E in Hperm. apply Permutation_sym in Hperm.
    now apply Permutation_nil in Hperm. }
  assert (Hval' : Forall valid (flattened args')).
  { apply Forall_forall. intros v Hv. rewrite Forall_forall in Hval.
    apply Hval. eapply Permutation_in; [apply Permutation_sym|]; eassumption. }
  destruct (accumulate_complement args Hacc Hne Hval)
    as (r & Hr & _ & Et & Ef).
  destruct (accumulate_complement args' Hacc' Hne' Hval')
    as (r' & Hr' & _ & Et' & Ef').
  exists r, r'. split; [exact Hr |]. split; [exact Hr' |].
  apply eq_of_Qeq.
  - rewrite Et, Et'. now rewrite (complement_product_perm t _ _ Hperm).
  - rewrite Ef, Ef'. now rewrite (complement_product_perm f _ _ Hperm).
Qed.

Lemma accumulate_order_independent_witness :
  exists r r',
    accumulate [PFuzzy (new 0.5 0.3); PFuzzy (new 0.4 0.2)] = Ok r
    /\ accumulate [PIter "tuple" [PFuzzy (new 0.4 0.2)];
                   PFuzzy (new 0.5 0.3)] = Ok r'
    /\ __eq__ r r' = true.
Proof.
  apply (accumulate_order_independent
           [PFuzzy (new 0.5 0.3); PFuzzy (new 0.4 0.2)]
           [PIter "tuple" [PFuzzy (new 0.4 0.2)]; PFuzzy (new 0.5 0.3)]).
  - reflexivity.
  - reflexivity.
  - discriminate.
  - repeat constructor; discriminate.
  - apply perm_swap.
Defined.

(** X12.  [accumulate] sees its arguments only through the values they
    contribute: calls that collect the same sequence of values return the
    same result, however the values are spread over arguments and
    iterables; and a single value is returned as it is. *)
Theorem accumulate_depends_on_collected_values (args args' : list PyObj) :
  forallb acceptable args = true ->
  forallb acceptable args' = true ->
  flattened args = flattened args' ->
  accumulate args = accumulate args'
  /\ (forall x, accumulate [PFuzzy x] = Ok x)
  /\ (forall x name, accumulate [PIter name [PFuzzy x]] = Ok x).
Proof.
  intros Hacc Hacc' E.
  rewrite (accumulate_of_flattened args Hacc),
          (accumulate_of_flattened args' Hacc'), E.
  repeat split.
Qed.

Lemma accumulate_depends_on_collected_values_witness :
  accumulate [PFuzzy (new 0.5 0); PIter "list" [PFuzzy (new 0.3 0);
                                                PFuzzy (new 0.2 0)]]
  = accumulate [PFuzzy (new 0.5 0); PFuzzy (new 0.3 0); PFuzzy (new 0.2 0)].
Proof.
  exact (proj1 (accumulate_depends_on_collected_values
                  [PFuzzy (new 0.5 0);
                   PIter "list" [PFuzzy (new 0.3 0); PFuzzy (new 0.2 0)]]
                  [PFuzzy (new 0.5 0); PFuzzy (new 0.3 0); PFuzzy (new 0.2 0)]
                  eq_refl eq_refl eq_refl)).
Defined.

(** ** Component-wise multiplication and division *)

Lemma mul_fuzzy_value (x y : FuzzyBool) :
  __mul__ x (Fuzzy y) = Ok (new (t x * t y) (f x * f y)).
Proof. reflexivity. Qed.

Lemma mul_scalar_value (x : FuzzyBool) (k : Q) :
  __mul__ x (Scalar k) = Ok (new (t x * k) (f x * k)).
Proof. reflexivity. Qed.

Lemma mul_fuzzy_components (x y : FuzzyBool) :
  valid x -> valid y ->
  t (new (t x * t y) (f x * f y)) == t x * t y
  /\ f (new (t x * t y) (f x * f y)) == f x * f y.
Proof.
  intros [Hxt Hxf] [Hyt Hyf]. split; apply clamp_inside; nra.
Qed.

Lemma mul_scalar_components (x : FuzzyBool) (k : Q) :
  valid x -> 0 <= k <= 1 ->
  t (new (t x * k) (f x * k)) == t x * k
  /\ f (new (t x * k) (f x * k)) == f x * k.
Proof.
  intros [Hxt Hxf] Hk. split; apply clamp_inside; nra.
Qed.

Lemma mul_scalar_nonpositive (x : FuzzyBool) (k : Q) :
  valid x -> k <= 0 -> new (t x * k) (f x * k) = UNKNOWN.
Proof.
  intros [Hxt Hxf] Hk. unfold UNKNOWN, new, __post_init__; simpl.
  rewrite (clamp_below (t x * k)) by nra.
  rewrite (clamp_below (f x * k)) by nra.
  reflexivity.
Qed.

Lemma clamp_eq_inside (v w : Q) : v == w -> 0 <= w <= 1 -> _clamp v == w.
Proof. intros E H. rewrite (clamp_compat v w E). now apply clamp_inside. Qed.

Lemma truediv_fuzzy (x y : FuzzyBool) :
  __truediv__ x (Fuzzy y)
  = Ok (new (if Py.ne (t y) 0 then t x / t y else 0)
            (if Py.ne (f y) 0 then f x / f y else 0)).
Proof.
  simpl.
  destruct (ne_spec (t y) 0) as [Ht | Ht];
    destruct (ne_spec (f y) 0) as [Hf | Hf];
    rewrite ?(div_nonzero _ _ Ht), ?(div_nonzero _ _ Hf); reflexivity.
Qed.

Lemma truediv_scalar (x : FuzzyBool) (k : Q) :
  ~ k == 0 -> __truediv__ x (Scalar k) = Ok (new (t x / k) (f x / k)).
Proof.
  intros Hk. simpl. destruct (eq_spec k 0) as [E | _]; [contradiction |].
  now rewrite !(div_nonzero _ _ Hk).
Qed.

Lemma div_scalar_negative (x : FuzzyBool) (k : Q) :
  valid x -> k < 0 -> new (t x / k) (f x / k) = UNKNOWN.
Proof.
  intros [Hxt Hxf] Hk. unfold UNKNOWN, new, __post_init__; simpl.
  assert (Hneg : forall a, 0 <= a -> a / k <= 0).
  { intros a Ha. apply Qle_minus_iff.
    setoid_replace (0 + - (a / k)) with (a / - k)
      by (field; lra).
    apply Qle_shift_div_l; lra. }
  rewrite (clamp_below (t x / k)) by (apply Hneg; lra).
  rewrite (clamp_below (f x / k)) by (apply Hneg; lra).
  reflexivity.
Qed.

(** X13.  [x * y] on values with components in [0, 1] multiplies component
    by component and is commutative.  By a finite float scalar [k], [x * k]
    always returns: it scales both components when [k] is in [0, 1],
    changes nothing when [k] is 1 and gives [UNKNOWN] when [k <= 0].  By an
    int [n], [x * n] is [x * float(n)] when [n] is in the float range and
    raises [OverflowError] otherwise.  By NaN or [+inf] it gives
    [CONFLICT]; by [-inf] a component of [x] above 0 becomes 0 and a
    component equal to 0 becomes 1.  [k * x] is [x * k]. *)
Theorem mul_laws (x y : FuzzyBool) (k : Q) (n : Z) (o : Operand) :
  valid x -> valid y ->
  (exists r r',
      __mul__ x (Fuzzy y) = Ok r /\ __mul__ y (Fuzzy x) = Ok r'
      /\ t r == t x * t y /\ f r == f x * f y /\ __eq__ r r' = true)
  /\ (exists r,
         __mul__ x (Scalar k) = Ok r
         /\ (0 <= k <= 1 -> t r == t x * k /\ f r == f x * k)
         /\ (k == 1 -> __eq__ r x = true)
         /\ (k <= 0 -> r = UNKNOWN))
  /\ ((Z.abs n < Py.int_limit)%Z ->
      __mul__ x (ScalarInt n) = __mul__ x (Scalar (inject_Z n)))
  /\ ((Py.int_limit <= Z.abs n)%Z ->
      __mul__ x (ScalarInt n)
      = Raise (OverflowError "int too large to convert to float"))
  /\ __mul__ x (ScalarNonFinite Py.NaN) = Ok CONFLICT
  /\ __mul__ x (ScalarNonFinite Py.PosInf) = Ok CONFLICT
  /\ (exists r,
         __mul__ x (ScalarNonFinite Py.NegInf) = Ok r
         /\ (0 < t x -> t r = 0) /\ (t x == 0 -> t r = 1)
         /\ (0 < f x -> f r = 0) /\ (f x == 0 -> f r = 1))
  /\ __rmul__ x o = __mul__ x o.
Proof.
  intros Hx Hy.
  destruct (mul_fuzzy_components x y Hx Hy) as [Et Ef].
  destruct (mul_fuzzy_components y x Hy Hx) as [Et' Ef'].
  pose proof Hx as [Hxt Hxf].
  split.
  { exists (new (t x * t y) (f x * f y)), (new (t y * t x) (f y * f x)).
    split; [reflexivity |]. split; [reflexivity |].
    split; [exact Et |]. split; [exact Ef |].
    apply eq_of_Qeq; [rewrite Et, Et' | rewrite Ef, Ef']; ring. }
  split.
  { exists (new (t x * k) (f x * k)). split; [reflexivity |].
    split; [intros Hk; now apply mul_scalar_components |].
    split; [| intros Hk; now apply mul_scalar_nonpositive].
    intros Hk. destruct (mul_scalar_components x k Hx) as [E1 E2]; [lra |].
    apply eq_of_Qeq; [rewrite E1 | rewrite E2]; rewrite Hk; ring. }
  split.
  { intros Hn. simpl. unfold Py.mul_int.
    now rewrite (float_of_int_in_range n Hn). }
  split.
  { intros Hn. simpl. unfold Py.mul_int.
    now rewrite (float_of_int_overflow n Hn). }
  split; [reflexivity |].
  split.
  { simpl. unfold Py.mul_nonfinite.
    destruct (lt_spec 0 (t x)); [| destruct (lt_spec (t x) 0); [lra |]];
      (destruct (lt_spec 0 (f x)); [| destruct (lt_spec (f x) 0); [lra |]]);
      reflexivity. }
  split; [| reflexivity].
  eexists. split; [reflexivity |]. simpl. unfold Py.mul_nonfinite.
  destruct (lt_spec 0 (t x)); [| destruct (lt_spec (t x) 0); [lra |]];
    (destruct (lt_spec 0 (f x)); [| destruct (lt_spec (f x) 0); [lra |]]);
    simpl; repeat split; intros H; try reflexivity; exfalso; lra.
Qed.

Lemma mul_laws_witness :
  valid (new 0.8 0.6) /\ valid (new 0.5 0.4)
  /\ (exists r, __mul__ (new 0.8 0.6) (Scalar 0.5) = Ok r
                /\ t r == 0.8 * 0.5)
  /\ __mul__ (new 0.8 0.6) (Scalar (-2)) = Ok UNKNOWN
  /\ __mul__ (new 0.8 0.6) (ScalarInt (10 ^ 400))
     = Raise (OverflowError "int too large to convert to float").
Proof.
  assert (Hx : valid (new 0.8 0.6)) by (repeat split; discriminate).
  assert (Hy : valid (new 0.5 0.4)) by (repeat split; discriminate).
  destruct (mul_laws (new 0.8 0.6) (new 0.5 0.4) 0.5 (10 ^ 400)
                     (Scalar 0.5) Hx Hy)
    as (_ & (r & Hr & Hs & _) & _ & Ho & _).
  destruct (mul_laws (new 0.8 0.6) (new 0.5 0.4) (-2) 0 (Scalar 0.5) Hx Hy)
    as (_ & (r' & Hr' & _ & _ & Hn) & _).
  split; [exact Hx |]. split; [exact Hy |].
  split.
  - exists r. split; [exact Hr |]. apply Hs. split; discriminate.
  - split.
    + rewrite Hr'. f_equal. apply Hn. discriminate.
    + apply Ho. vm_compute. discriminate.
Defined.

(** X15.  Quotients are clamped: on values with components in [0, 1],
    [x / x] has component 1 where the component of [x] is not zero and 0
    where it is zero; a component of [x / y] is 1 as soon as the component
    of [y] is positive and not larger than that of [x]; and dividing by a
    negative finite float, or by a negative int in the float range, gives
    [UNKNOWN]. *)
Theorem truediv_saturates (x y : FuzzyBool) (k : Q) (n : Z) :
  valid x -> valid y ->
  (exists r,
      __truediv__ x (Fuzzy x) = Ok r
      /\ (~ t x == 0 -> t r = 1) /\ (t x == 0 -> t r = 0)
      /\ (~ f x == 0 -> f r = 1) /\ (f x == 0 -> f r = 0))
  /\ (exists r,
         __truediv__ x (Fuzzy y) = Ok r
         /\ (0 < t y <= t x -> t r = 1)
         /\ (0 < f y <= f x -> f r = 1))
  /\ (k < 0 -> __truediv__ x (Scalar k) = Ok UNKNOWN)
  /\ ((n < 0)%Z -> (Z.abs n < Py.int_limit)%Z ->
      __truediv__ x (ScalarInt n) = Ok UNKNOWN).
Proof.
  intros Hx Hy. pose proof Hx as [Hxt Hxf]. pose proof Hy as [Hyt Hyf].
  assert (Hratio : forall a b, 0 < b <= a -> 1 <= a / b).
  { intros a b Hab. apply Qle_shift_div_l; lra. }
  split; [| split; [| split]].
  - rewrite truediv_fuzzy. eexists. split; [reflexivity |]. simpl.
    destruct (ne_spec (t x) 0) as [Ht | Ht];
      destruct (ne_spec (f x) 0) as [Hf | Hf];
      repeat split; intros H; try contradiction; try reflexivity;
      apply clamp_above, Hratio; lra.
  - rewrite truediv_fuzzy. eexists. split; [reflexivity |]. simpl.
    split; intros H.
    + destruct (ne_spec (t y) 0) as [Ht | Ht]; [| lra].
      now apply clamp_above, Hratio.
    + destruct (ne_spec (f y) 0) as [Hf | Hf]; [| lra].
      now apply clamp_above, Hratio.
  - intros Hk. rewrite truediv_scalar by lra.
    f_equal. now apply div_scalar_negative.
  - intros Hneg Hn.
    destruct (truediv_int_policy x n) as (_ & Hin & _).
    rewrite Hin by (assumption || lia).
    f_equal. apply div_scalar_negative; [assumption |].
    unfold Qlt, inject_Z; simpl. lia.
Qed.

Lemma truediv_saturates_witness :
  (exists r, __truediv__ (new 0.8 0.6) (Fuzzy (new 0.4 0.3)) = Ok r
             /\ t r = 1 /\ f r = 1)
  /\ __truediv__ (new 0.8 0.6) (Scalar (-2)) = Ok UNKNOWN
  /\ __truediv__ (new 0.8 0.6) (ScalarInt (-2)) = Ok UNKNOWN.
Proof.
  assert (Hx : valid (new 0.8 0.6)) by (repeat split; discriminate).
  assert (Hy : valid (new 0.4 0.3)) by (repeat split; discriminate).
  destruct (truediv_saturates (new 0.8 0.6) (new 0.4 0.3) (-2) (-2) Hx Hy)
    as (_ & (r & Hr & Ht & Hf) & Hk & Hn).
  split.
  - exists r. split; [exact Hr |].
    split; [apply Ht | apply Hf]; split; first [reflexivity | discriminate].
  - split; [apply Hk; reflexivity |].
    apply Hn; reflexivity.
Defined.

(** ** [from_probability] *)

(** X16.  [from_probability(p)] is a value with [t + f = 1] for every [p];
    for [p] in [0, 1] its tuple is [(p, 1 - p)]; [p <= 0] gives [FALSE] and
    [p >= 1] gives [TRUE]; its unknown and conflict components coincide. *)
Theorem from_probability_complementary (p : Q) :
  valid (from_probability p)
  /\ t (from_probability p) + f (from_probability p) == 1
  /\ (0 <= p <= 1 ->
      fst (as_tuple (from_probability p)) == p
      /\ snd (as_tuple (from_probability p)) == 1 - p)
  /\ (p <= 0 -> from_probability p = FALSE)
  /\ (1 <= p -> from_probability p = TRUE)
  /\ unknown (from_probability p) == conflict (from_probability p).
Proof.
  pose proof (clamp_range p) as Hc.
  assert (Et : t (from_probability p) == _clamp p).
  { apply clamp_inside. exact Hc. }
  assert (Ef : f (from_probability p) == 1 - _clamp p).
  { apply clamp_inside. lra. }
  split; [apply new_valid |].
  split; [rewrite Et, Ef; ring |].
  split.
  - intros Hp. simpl. rewrite Et, Ef, (clamp_inside p Hp). split; reflexivity.
  - split; [| split].
    + intros Hp. unfold from_probability. now rewrite (clamp_below p Hp).
    + intros Hp. unfold from_probability. now rewrite (clamp_above p Hp).
    + unfold unknown, conflict, _t_norm. rewrite Et, Ef. ring.
Qed.

Lemma from_probability_complementary_witness :
  fst (as_tuple (from_probability 0.8)) == 0.8
  /\ snd (as_tuple (from_probability 0.8)) == 1 - 0.8
  /\ from_probability (-1) = FALSE
  /\ from_probability 3 = TRUE.
Proof.
  destruct (from_probability_complementary 0.8) as (_ & _ & Hin & _).
  destruct (from_probability_complementary (-1)) as (_ & _ & _ & Hlo & _).
  destruct (from_probability_complementary 3) as (_ & _ & _ & _ & Hhi & _).
  split; [apply Hin; split; discriminate |].
  split; [apply Hin; split; discriminate |].
  split; [apply Hlo; discriminate | apply Hhi; discriminate].
Defined.

(** ** Derived components and predicates *)

Lemma derived_range (x : FuzzyBool) :
  valid x ->
  (0 <= truth x <= 1) /\ (0 <= falsity x <= 1)
  /\ (0 <= unknown x <= 1) /\ (0 <= conflict x <= 1).
Proof.
  intros [Ht Hf]. unfold truth, falsity, unknown, conflict, _t_norm.
  repeat split; nra.
Qed.

Lemma derived_sum (x : FuzzyBool) :
  truth x + falsity x + unknown x + conflict x == 1.
Proof. unfold truth, falsity, unknown, conflict, _t_norm. ring. Qed.

(** X17.  Each derived component of a value with components in [0, 1]
    lies in [0, 1], and [as_dict] lists the four of them, each in [0, 1],
    under the names truth, falsity, unknown, conflict. *)
Theorem derived_components_in_unit_interval (x : FuzzyBool) :
  valid x ->
  (0 <= truth x <= 1) /\ (0 <= falsity x <= 1)
  /\ (0 <= unknown x <= 1) /\ (0 <= conflict x <= 1)
  /\ map fst (as_dict x)
     = ["truth"%string; "falsity"%string; "unknown"%string; "conflict"%string]
  /\ Forall (fun item => 0 <= snd item <= 1) (as_dict x).
Proof.
  intros Hx. destruct (derived_range x Hx) as (H1 & H2 & H3 & H4).
  repeat (split; [assumption |]).
  split; [reflexivity |].
  repeat constructor; simpl; tauto.
Qed.

Lemma derived_components_in_unit_interval_witness :
  valid (new 0.8 0.2) /\ 0 <= truth (new 0.8 0.2) <= 1.
Proof.
  assert (Hx : valid (new 0.8 0.2)) by (repeat split; discriminate).
  split; [exact Hx |].
  exact (proj1 (derived_components_in_unit_interval (new 0.8 0.2) Hx)).
Defined.

(** X18.  On a value with components in [0, 1]: with a threshold of 0 or
    less all four predicates hold; with a threshold above 1 none holds;
    with a threshold above 0.5 at most one of them holds. *)
Theorem predicates_by_threshold (x : FuzzyBool) (h : Q) :
  valid x ->
  (h <= 0 ->
   is_true x h = true /\ is_false x h = true
   /\ is_unknown x h = true /\ is_conflict x h = true)
  /\ (1 < h ->
      is_true x h = false /\ is_false x h = false
      /\ is_unknown x h = false /\ is_conflict x h = false)
  /\ (1 # 2 < h ->
      (is_true x h = true ->
       is_false x h = false /\ is_unknown x h = false
       /\ is_conflict x h = false)
      /\ (is_false x h = true ->
          is_unknown x h = false /\ is_conflict x h = false)
      /\ (is_unknown x h = true -> is_conflict x h = false)).
Proof.
  intros Hx. destruct (derived_range x Hx) as (H1 & H2 & H3 & H4).
  pose proof (derived_sum x) as Hs.
  unfold is_true, is_false, is_unknown, is_conflict.
  destruct (ge_spec (truth x) h), (ge_spec (falsity x) h),
    (ge_spec (unknown x) h), (ge_spec (conflict x) h);
    repeat split; intros; try reflexivity; try discriminate; exfalso; lra.
Qed.

Lemma predicates_by_threshold_witness :
  is_true (new 0.9 0.1) 0.6 = true /\ is_false (new 0.9 0.1) 0.6 = false
  /\ is_true (new 0.9 0.1) 1.5 = false.
Proof.
  assert (Hx : valid (new 0.9 0.1)) by (repeat split; discriminate).
  destruct (predicates_by_threshold (new 0.9 0.1) 0.6 Hx) as (_ & _ & Hm).
  destruct (predicates_by_threshold (new 0.9 0.1) 1.5 Hx) as (_ & Hhi & _).
  assert (Ht : is_true (new 0.9 0.1) 0.6 = true) by reflexivity.
  split; [exact Ht |].
  split.
  - exact (proj1 (proj1 (Hm eq_refl) Ht)).
  - exact (proj1 (Hhi eq_refl)).
Defined.

(** ** Dominant state *)

Lemma dominant_state_cases (x : FuzzyBool) :
  dominant_state x
  = Ok (if Py.gt (falsity x) (truth x)
        then if Py.gt (unknown x) (falsity x)
             then if Py.gt (conflict x) (unknown x)
                  then "conflict" else "unknown"
             else if Py.gt (conflict x) (falsity x)
                  then "conflict" else "false"
        else if Py.gt (unknown x) (truth x)
             then if Py.gt (conflict x) (unknown x)
                  then "conflict" else "unknown"
             else if Py.gt (conflict x) (truth x)
                  then "conflict" else "true")%string.
Proof.
  unfold dominant_state, components, Py.max_key, Py.max_key_from.
  destruct (Py.gt (falsity x) (truth x));
    [ destruct (Py.gt (unknown x) (falsity x))
    | destruct (Py.gt (unknown x) (truth x)) ];
    first [ destruct (Py.gt (conflict x) (unknown x))
          | destruct (Py.gt (conflict x) (falsity x))
          | destruct (Py.gt (conflict x) (truth x)) ];
    reflexivity.
Qed.

Ltac dominant_by_cases x :=
  rewrite (dominant_state_cases x);
  destruct (gt_spec (falsity x) (truth x));
  destruct (gt_spec (unknown x) (falsity x));
  destruct (gt_spec (unknown x) (truth x));
  destruct (gt_spec (conflict x) (unknown x));
  destruct (gt_spec (conflict x) (falsity x));
  destruct (gt_spec (conflict x) (truth x));
  try reflexivity.

(** X19.  [dominant_state] names the quadrant of [(t, f)]: "true" when
    [t > 0.5 > f], "false" when [f > 0.5 > t], "unknown" when both are
    below 0.5 and "conflict" when both are above 0.5. *)
Theorem dominant_state_by_quadrant (x : FuzzyBool) :
  (1 # 2 < t x -> f x < 1 # 2 -> dominant_state x = Ok "true"%string)
  /\ (t x < 1 # 2 -> 1 # 2 < f x -> dominant_state x = Ok "false"%string)
  /\ (t x < 1 # 2 -> f x < 1 # 2 -> dominant_state x = Ok "unknown"%string)
  /\ (1 # 2 < t x -> 1 # 2 < f x -> dominant_state x = Ok "conflict"%string).
Proof.
  repeat split; intros Ht Hf; dominant_by_cases x; exfalso;
    unfold truth, falsity, unknown, conflict, _t_norm in *; nra.
Qed.

Lemma dominant_state_by_quadrant_witness :
  dominant_state (new 0.8 0.2) = Ok "true"%string
  /\ dominant_state (new 0.1 0.7) = Ok "false"%string
  /\ dominant_state (new 0.2 0.3) = Ok "unknown"%string
  /\ dominant_state (new 0.9 0.6) = Ok "conflict"%string.
Proof.
  destruct (dominant_state_by_quadrant (new 0.8 0.2)) as (H1 & _).
  destruct (dominant_state_by_quadrant (new 0.1 0.7)) as (_ & H2 & _).
  destruct (dominant_state_by_quadrant (new 0.2 0.3)) as (_ & _ & H3 & _).
  destruct (dominant_state_by_quadrant (new 0.9 0.6)) as (_ & _ & _ & H4).
  split; [apply H1; reflexivity |].
  split; [apply H2; reflexivity |].
  split; [apply H3; reflexivity | apply H4; reflexivity].
Defined.

(** X20.  A predicate that holds with a threshold above 0.5 names the
    dominant state: on a value with components in [0, 1], [is_true(h)]
    with [h > 0.5] implies that [dominant_state] is "true", and likewise
    for [is_false], [is_unknown] and [is_conflict]. *)
Theorem predicate_names_dominant_state (x : FuzzyBool) (h : Q) :
  valid x -> 1 # 2 < h ->
  (is_true x h = true -> dominant_state x = Ok "true"%string)
  /\ (is_false x h = true -> dominant_state x = Ok "false"%string)
  /\ (is_unknown x h = true -> dominant_state x = Ok "unknown"%string)
  /\ (is_conflict x h = true -> dominant_state x = Ok "conflict"%string).
Proof.
  intros Hx Hh. destruct (derived_range x Hx) as (H1 & H2 & H3 & H4).
  pose proof (derived_sum x) as Hs.
  unfold is_true, is_false, is_unknown, is_conflict.
  repeat split; intros Hp;
    match type of Hp with
    | Py.ge ?c h = true => destruct (ge_spec c h); [| discriminate]
    end;
    dominant_by_cases x; exfalso; lra.
Qed.

Lemma predicate_names_dominant_state_witness :
  is_conflict (new 0.9 0.8) 0.7 = true
  /\ dominant_state (new 0.9 0.8) = Ok "conflict"%string.
Proof.
  assert (Hx : valid (new 0.9 0.8)) by (repeat split; discriminate).
  assert (Hp : is_conflict (new 0.9 0.8) 0.7 = true) by reflexivity.
  destruct (predicate_names_dominant_state (new 0.9 0.8) 0.7 Hx eq_refl)
    as (_ & _ & _ & H).
  split; [exact Hp | exact (H Hp)].
Defined.

(** ** Equality and hashing *)

(** X21.  [==] is reflexive and symmetric but, being a tolerance, not
    transitive: [(0, 0) == (6e-10, 0)] and [(6e-10, 0) == (1.2e-9, 0)], yet
    [(0, 0)] and [(1.2e-9, 0)] are not [==]. *)
Theorem eq_reflexive_symmetric_not_transitive :
  (forall x, __eq__ x x = true)
  /\ (forall x y, __eq__ x y = __eq__ y x)
  /\ __eq__ (new 0 0) (new 6e-10 0) = true
  /\ __eq__ (new 6e-10 0) (new 1.2e-9 0) = true
  /\ __eq__ (new 0 0) (new 1.2e-9 0) = false
  /\ ~ (forall x y z,
           valid x -> valid y -> valid z ->
           __eq__ x y = true -> __eq__ y z = true -> __eq__ x z = true).
Proof.
  assert (H1 : __eq__ (new 0 0) (new 6e-10 0) = true)
    by (vm_compute; reflexivity).
  assert (H2 : __eq__ (new 6e-10 0) (new 1.2e-9 0) = true)
    by (vm_compute; reflexivity).
  assert (H3 : __eq__ (new 0 0) (new 1.2e-9 0) = false)
    by (vm_compute; reflexivity).
  split; [intros x; apply eq_of_Qeq; reflexivity |].
  split.
  - intros x y. unfold __eq__, Py.abs.
    now rewrite (Qabs_Qminus (t x) (t y)), (Qabs_Qminus (f x) (f y)).
  - repeat (split; [assumption |]).
    intros H.
    specialize (H _ _ _ (new_valid _ _) (new_valid _ _) (new_valid _ _) H1 H2).
    rewrite H3 in H. discriminate.
Qed.

(** ** The constructor on every binary64 input *)

Module Binary64Range.
Import PrimFloat Binary64.
Local Open Scope float_scope.

Lemma ltb_leb (a b : float) : (a <? b) = true -> (a <=? b) = true.
Proof.
  rewrite FloatAxioms.ltb_spec, FloatAxioms.leb_spec.
  unfold SpecFloat.SFltb, SpecFloat.SFleb.
  destruct (SpecFloat.SFcompare _ _) as [[ | | ] | ]; auto.
Qed.

Lemma clamp_in_unit (v : float) : in_unit (_clamp v) = true.
Proof.
  unfold in_unit, _clamp, max, min, gt, lt.
  destruct (v <? 1) eqn:E1; cbv iota.
  - destruct (0 <? v) eqn:E2; cbv iota.
    + apply andb_true_iff. split; now apply ltb_leb.
    + reflexivity.
  - reflexivity.
Qed.

(** X23.  On binary64 floats the constructor puts both components into
    [0, 1] for every input, NaN and the infinities included (NaN and
    [+inf] become 1, [-inf] becomes 0), so the results of [&], [+] and [/]
    have components in [0, 1] for all operands. *)
Theorem binary64_components_in_unit (a b : float) (x y : FuzzyBool) :
  in_unit (t (new a b)) = true
  /\ in_unit (f (new a b)) = true
  /\ new nan neg_infinity = new 1 0
  /\ new infinity nan = new 1 1
  /\ in_unit (t (__and__ x y)) = true
  /\ in_unit (f (__and__ x y)) = true
  /\ in_unit (t (__add__ x y)) = true
  /\ in_unit (f (__add__ x y)) = true
  /\ (forall r, __truediv__ x y = Ok r ->
                in_unit (t r) = true /\ in_unit (f r) = true).
Proof.
  repeat (split; [first [apply clamp_in_unit | reflexivity] |]).
  intros r. unfold __truediv__.
  destruct (ne (t y) 0); [destruct (div (t x) (t y)) |]; simpl;
    try discriminate;
    (destruct (ne (f y) 0); [destruct (div (f x) (f y)) |]; simpl;
     try discriminate; intros [= <-]; split; apply clamp_in_unit).
Qed.

Lemma binary64_components_in_unit_witness :
  in_unit (t (new 1 1)) = true.
Proof.
  destruct (binary64_components_in_unit 0 0 (new 1 1) (new 1 1))
    as (_ & _ & _ & _ & _ & _ & _ & _ & Hdiv).
  exact (proj1 (Hdiv (new 1 1) eq_refl)).
Defined.

End Binary64Range.

(** ** Bounds of conjunction and disjunction *)

(** X24.  On values with components in [0, 1], [x & y] confirms no more
    than either operand and refutes no less; [x | y] confirms no less than
    either operand and refutes no more. *)
Theorem and_or_bounds (x y : FuzzyBool) :
  valid x -> valid y ->
  (t (__and__ x y) <= t x /\ t (__and__ x y) <= t y
   /\ f x <= f (__and__ x y) /\ f y <= f (__and__ x y))
  /\ (t x <= t (__or__ x y) /\ t y <= t (__or__ x y)
      /\ f (__or__ x y) <= f x /\ f (__or__ x y) <= f y).
Proof.
  intros Hx Hy.
  destruct (and_components x y Hx Hy) as [At Af].
  destruct (or_components x y Hx Hy) as [Ot Of].
  destruct Hx as [Hxt Hxf], Hy as [Hyt Hyf].
  rewrite At, Af, Ot, Of. repeat split; nra.
Qed.

Lemma and_or_bounds_witness :
  t (__and__ (new 0.8 0.2) (new 0.6 0.3)) <= t (new 0.6 0.3)
  /\ t (new 0.8 0.2) <= t (__or__ (new 0.8 0.2) (new 0.6 0.3)).
Proof.
  assert (Hx : valid (new 0.8 0.2)) by (repeat split; discriminate).
  assert (Hy : valid (new 0.6 0.3)) by (repeat split; discriminate).
  destruct (and_or_bounds (new 0.8 0.2) (new 0.6 0.3) Hx Hy)
    as ((_ & Ha & _) & (Ho & _)).
  split; [exact Ha | exact Ho].
Defined.

(** ** The first offending argument of [accumulate] *)

Lemma extend_values_app (good : list FuzzyBool) (rest : list PyObj) :
  forall values,
    extend_values values (map PFuzzy good ++ rest)
    = extend_values (values ++ good) rest.
Proof.
  induction good as [| g good IH]; intros values; simpl.
  - now rewrite app_nil_r.
  - rewrite IH. now rewrite <- app_assoc.
Qed.

Lemma flatten_args_app (good rest : list PyObj) :
  forall values,
    forallb acceptable good = true ->
    flatten_args values (good ++ rest)
    = flatten_args (values ++ flattened good) rest.
Proof.
  induction good as [| arg good IH]; intros values H.
  - simpl. now rewrite app_nil_r.
  - simpl in H. apply andb_true_iff in H as [Harg Hgood].
    unfold flattened. simpl flat_map. fold (flattened good).
    rewrite app_assoc. rewrite <- (IH _ Hgood).
    destruct arg as [x | name items | s | name]; simpl in *;
      try discriminate; try reflexivity;
      now rewrite extend_values_ok by assumption.
Qed.

(** X25.  [accumulate] reports the first offending object: after any
    acceptable arguments, an argument without [__iter__] raises
    [TypeError("Expected FuzzyBool or iterable, got <type>")], and an
    iterable whose first non-[FuzzyBool] item is [item] raises
    [TypeError("Expected FuzzyBool, got <type of item>")], whatever
    follows. *)
Theorem accumulate_first_offender
        (good rest : list PyObj) (name : string)
        (items : list FuzzyBool) (item : PyObj) (tail : list PyObj) :
  forallb acceptable good = true ->
  is_fuzzy item = false ->
  accumulate (good ++ PAtom name :: rest)
  = Raise (TypeError ("Expected FuzzyBool or iterable, got " ++ name))
  /\ accumulate (good ++ PIter name (map PFuzzy items ++ item :: tail) :: rest)
     = Raise (TypeError ("Expected FuzzyBool, got " ++ type_name item)).
Proof.
  intros Hgood Hitem. unfold accumulate.
  rewrite !(flatten_args_app good _ [] Hgood). simpl.
  split; [reflexivity |].
  rewrite extend_values_app.
  destruct item; simpl in *; try discriminate; reflexivity.
Qed.

Lemma accumulate_first_offender_witness :
  accumulate [PFuzzy TRUE; PAtom "int"; PStr "bad"]
  = Raise (TypeError "Expected FuzzyBool or iterable, got int")
  /\ accumulate [PFuzzy TRUE;
                 PIter "list" [PFuzzy FALSE; PAtom "NoneType"; PStr "x"];
                 PAtom "int"]
     = Raise (TypeError "Expected FuzzyBool, got NoneType").
Proof.
  split.
  - exact (proj1 (accumulate_first_offender
                    [PFuzzy TRUE] [PStr "bad"] "int" [] (PAtom "int") []
                    eq_refl eq_refl)).
  - exact (proj2 (accumulate_first_offender
                    [PFuzzy TRUE] [PAtom "int"] "list" [FALSE]
                    (PAtom "NoneType") [PStr "x"] eq_refl eq_refl)).
Defined.
